(** * Sensei 2.0 provider dispatch: LLM router, embedding router, embedding client

    A shallow embedding of
      - [common/sensei_common/connectors/llm_router.py]
      - [common/sensei_common/connectors/embedding_router.py]
      - [common/sensei_common/connectors/embedding_client.py]
      - [common/sensei_common/connectors/redis_client.py]
      - [common/sensei_common/logging/logger.py], as far as the
        connectors call it
    together with the properties of the dispatch layer that hold of them.

    Python dictionaries are [gmap]s, lists are [list]s, [Optional] is
    [option], integers are [Z].  Code that raises returns [Err]; code that
    talks to the network, to Redis or to the random generator threads a
    [world] through an exception-and-state monad. *)

From Stdlib Require Import ZArith NArith Ascii String List Bool Lia.
From stdpp Require Import base option list gmap strings.

Open Scope Z_scope.

(** ** Python text *)

(** A Python [str] whose characters matter (the text to embed, a model
    identifier, a JSON string) is its sequence of Unicode code points.
    Identifiers that are only ever compared (provider names, use cases,
    dictionary keys, cache keys) are [string]s. *)
Module PyStr.

Abbreviation pystr := (list N).

(** Code points of an ASCII literal. *)
Fixpoint of_string (s : string) : pystr :=
  match s with
  | EmptyString => []
  | String a s' => N_of_ascii a :: of_string s'
  end.

(** [str.isspace] on one character, as [str.split()] uses it: the ASCII
    table 0x09-0x0D, 0x1C-0x20, then 0x85, 0xA0, 0x1680, 0x2000-0x200A,
    0x2028, 0x2029, 0x202F, 0x205F, 0x3000. *)
Definition isspace (c : N) : bool :=
  ((9 <=? c) && (c <=? 13) || (28 <=? c) && (c <=? 32)
   || (c =? 133) || (c =? 160) || (c =? 5760)
   || (8192 <=? c) && (c <=? 8202)
   || (c =? 8232) || (c =? 8233) || (c =? 8239) || (c =? 8287)
   || (c =? 12288))%N.

Definition SPACE : N := 32%N.

(** The word under construction is kept reversed; [flush] emits it. *)
Definition flush (word : pystr) : list pystr :=
  match word with
  | [] => []
  | _ :: _ => [rev word]
  end.

(** [text.split()] with no separator: scan left to right, skip whitespace,
    collect each maximal run of other characters. *)
Fixpoint split_from (word : pystr) (s : pystr) : list pystr :=
  match s with
  | [] => flush word
  | c :: s' =>
      if isspace c then flush word ++ split_from [] s'
      else split_from (c :: word) s'
  end.

Definition split (s : pystr) : list pystr := split_from [] s.

(** [sep.join(words)]. *)
Fixpoint join (sep : pystr) (words : list pystr) : pystr :=
  match words with
  | [] => []
  | [w] => w
  | w :: ws => w ++ sep ++ join sep ws
  end.

(** [" ".join(text.split())], the first line of [_fingerprint]. *)
Definition normalize (text : pystr) : pystr := join [SPACE] (split text).

(** Two texts that differ only in their runs of whitespace: the least
    equivalence that may replace one whitespace character by another,
    lengthen a run, and add whitespace in front or at the end. *)
Inductive ws_equiv : pystr -> pystr -> Prop :=
| ws_refl t : ws_equiv t t
| ws_sym t u : ws_equiv t u -> ws_equiv u t
| ws_trans t u v : ws_equiv t u -> ws_equiv u v -> ws_equiv t v
| ws_subst l c c' r :
    isspace c = true -> isspace c' = true ->
    ws_equiv (l ++ c :: r) (l ++ c' :: r)
| ws_grow l c c' r :
    isspace c = true -> isspace c' = true ->
    ws_equiv (l ++ c :: r) (l ++ c :: c' :: r)
| ws_lead c r : isspace c = true -> ws_equiv r (c :: r)
| ws_trail l c : isspace c = true -> ws_equiv l (l ++ [c]).

(** What a normalized text looks like: words without whitespace, joined by
    exactly one U+0020, nothing in front, nothing at the end. *)
Definition is_word (w : pystr) : Prop :=
  w <> [] /\ Forall (fun c => isspace c = false) w.

Definition normal_form (t : pystr) : Prop :=
  exists words, Forall is_word words /\ t = join [SPACE] words.

End PyStr.

(** ** Python values, exceptions and effects *)

Module Py.
Import PyStr.

(** The exceptions the modelled code can see. *)
Inductive exn :=
| KeyError (key : string)
| IndexError
| TypeError
| ValueError (msg : string)
| RuntimeError (msg : string)
| TimeoutException
| ConnectError
| HTTPStatusError (status : Z)
| JSONDecodeError
| UnicodeEncodeError
| RedisError.

Inductive result (A : Type) :=
| Ok (a : A)
| Err (e : exn).
Arguments Ok {A} a.
Arguments Err {A} e.

Definition is_ok {A} (r : result A) : bool :=
  match r with Ok _ => true | Err _ => false end.

(** The design's classes of provider failure ("timeout, 5xx-equivalent,
    connection failure" are transient; everything else is not).  The
    routers themselves never classify an exception. *)
Definition is_transient (e : exn) : bool :=
  match e with
  | TimeoutException | ConnectError => true
  | HTTPStatusError status => (500 <=? status) && (status <? 600)
  | _ => false
  end.

(** A decoded JSON document.  Numbers are never inspected by the routers
    and are carried as opaque integers. *)
#[local] Unset Elimination Schemes.
Inductive json :=
| JNull
| JBool (b : bool)
| JNum (n : Z)
| JStr (s : pystr)
| JList (items : list json)
| JDict (items : list (string * json)).
#[local] Set Elimination Schemes.

Fixpoint assoc {A} (key : string) (items : list (string * A)) : option A :=
  match items with
  | [] => None
  | (k, v) :: rest => if String.eqb k key then Some v else assoc key rest
  end.

(** [v[key]] for a string key. *)
Definition getitem (v : json) (key : string) : result json :=
  match v with
  | JDict items =>
      match assoc key items with
      | Some x => Ok x
      | None => Err (KeyError key)
      end
  | _ => Err TypeError
  end.

(** [v[0]]. *)
Definition getitem0 (v : json) : result json :=
  match v with
  | JList (x :: _) => Ok x
  | JList [] => Err IndexError
  | JStr (c :: _) => Ok (JStr [c])
  | JStr [] => Err IndexError
  | JDict _ => Err (KeyError "0")
  | _ => Err TypeError
  end.

(** [len(v)]. *)
Definition len (v : json) : result Z :=
  match v with
  | JList items => Ok (Z.of_nat (length items))
  | JStr s => Ok (Z.of_nat (length s))
  | JDict items => Ok (Z.of_nat (length items))
  | _ => Err TypeError
  end.

(** One outbound HTTP request.  [req_provider] is the provider's name,
    kept for reading traces. *)
Record request := {
  req_provider : string;
  req_endpoint : string;
  req_authorization : option string;
  req_timeout_ms : Z;
  req_json : json
}.

(** What a call does to the outside world, in order. *)
Inductive event :=
| EvPost (r : request)
| EvSleep (delay : Z)
| EvRandom
| EvRedisGet (key : string)
| EvRedisSet (key value : string) (ttl : Z).

(** The outside world and the library functions the code calls.  Every
    answer may depend on all that happened before.
    - [http_post h r]: [client.post], [raise_for_status] and [resp.json()]
      together: the decoded body, or the exception one of them raises;
    - [choices h n weights]: [random.choices(population, weights=weights,
      k=1)] for a population of [n] items: the index of the item it
      returns, or the exception it raises (its arithmetic is in floating
      point and is not reproduced here);
    - [redis_fault h]: the exception the next Redis command raises, if any;
    - [sha256_hexdigest t]: [hashlib.sha256(t.encode("utf-8")).hexdigest()];
    - [json_dumps], [json_loads], [py_str]: [json.dumps], [json.loads],
      [str]. *)
Record env := {
  http_post : list event -> request -> result json;
  choices : list event -> nat -> list Z -> result nat;
  redis_fault : list event -> option exn;
  sha256_hexdigest : pystr -> string;
  json_dumps : json -> string;
  json_loads : string -> result json;
  py_str : json -> pystr
}.

(** The state a call threads: what happened so far and the Redis
    database.  Expiry of keys is not modelled; the TTL of a write is
    visible on its event. *)
Record world := {
  trace : list event;
  redis : gmap string string
}.

Definition M (A : Type) : Type := world -> result A * world.

Definition ret {A} (a : A) : M A := fun w => (Ok a, w).

Definition raise {A} (e : exn) : M A := fun w => (Err e, w).

Definition bind {A B} (m : M A) (k : A -> M B) : M B :=
  fun w =>
    match m w with
    | (Ok a, w') => k a w'
    | (Err e, w') => (Err e, w')
    end.

(** [try: m  except Exception as exc: handler(exc)]. *)
Definition try_except {A} (m : M A) (handler : exn -> M A) : M A :=
  fun w =>
    match m w with
    | (Ok a, w') => (Ok a, w')
    | (Err e, w') => handler e w'
    end.

Definition lift {A} (r : result A) : M A := fun w => (r, w).

Definition emit (ev : event) (w : world) : world :=
  {| trace := trace w ++ [ev]; redis := redis w |}.

(** The world after [n] more occurrences of [ev]. *)
Definition after (w : world) (ev : event) (n : nat) : world :=
  {| trace := trace w ++ repeat ev n; redis := redis w |}.

Definition is_post (ev : event) : bool :=
  match ev with
  | EvPost _ => true
  | _ => false
  end.

Declare Scope py_scope.
Delimit Scope py_scope with py.
Notation "'let!' x ':=' m 'in' k" := (bind m (fun x => k))
  (at level 10, x name, m at level 200, k at level 200) : py_scope.
Notation "m ';;' k" := (bind m (fun _ => k))
  (at level 100, k at level 200, right associativity) : py_scope.
Open Scope py_scope.

(** [for x in xs: ys.append(f(x))] in the monad. *)
Fixpoint for_each {A B} (f : A -> M B) (xs : list A) : M (list B) :=
  match xs with
  | [] => ret []
  | x :: rest =>
      let! y := f x in
      let! ys := for_each f rest in
      ret (y :: ys)
  end.

(** A list comprehension whose element expression may raise. *)
Fixpoint comprehension {A B} (f : A -> result B) (xs : list A)
  : result (list B) :=
  match xs with
  | [] => Ok []
  | x :: rest =>
      match f x with
      | Err e => Err e
      | Ok y =>
          match comprehension f rest with
          | Err e => Err e
          | Ok ys => Ok (y :: ys)
          end
      end
  end.

(** *** Logging, as [logging/logger.py] and the standard library have it *)

(** A call of [get_logger] with [positional] positional arguments.  The
    function is declared [def get_logger(name: str) -> logging.Logger]:
    Python binds the arguments before the body runs, and a call with any
    other number of positional arguments raises [TypeError].  With one
    argument it configures logging and returns a [logging.Logger]; the
    handlers and files it sets up are not modelled. *)
Definition get_logger (positional : nat) : M unit :=
  if (positional =? 1)%nat then ret tt else raise TypeError.

(** The keyword parameters of [logging.Logger._log]. *)
Definition _log_keywords : list string :=
  ["exc_info"; "extra"; "stack_info"; "stacklevel"].

(** [logger.error(msg, *args, **keywords)] on a [logging.Logger]:
    [Logger.error] hands its keyword arguments on to [Logger._log], and a
    keyword that [_log] does not declare raises [TypeError].
    Records of level ERROR are taken to be enabled, as [get_logger]
    leaves them ([setLevel(DEBUG)] on a logger without a level), so the
    call is not dropped before [_log].  The calls of [logger.info] and
    [logger.warning] in the modelled code pass positional arguments only
    and return. *)
Definition logger_error (keywords : list string) : M unit :=
  if forallb (fun k => existsb (String.eqb k) _log_keywords) keywords
  then ret tt
  else raise TypeError.

Section Primitives.
Context (E : env).

(** [await client.post(...)]; [resp.raise_for_status()]; [resp.json()]. *)
Definition post (r : request) : M json :=
  fun w => (http_post E (trace w) r, emit (EvPost r) w).

(** [random.choices(population, weights=weights, k=1)[0]].  An index
    outside the population is never returned by the library. *)
Definition random_choices {A} (population : list A) (weights : list Z)
  : M A :=
  fun w =>
    match choices E (trace w) (length population) weights with
    | Err e => (Err e, emit EvRandom w)
    | Ok i =>
        match population !! i with
        | Some x => (Ok x, emit EvRandom w)
        | None => (Err IndexError, emit EvRandom w)
        end
    end.

(** [await self._redis.get(key)]. *)
Definition redis_GET (key : string) : M (option string) :=
  fun w =>
    match redis_fault E (trace w) with
    | Some e => (Err e, emit (EvRedisGet key) w)
    | None => (Ok (redis w !! key), emit (EvRedisGet key) w)
    end.

(** [RedisClient.get]: the logger is obtained outside the [try]; the
    [except] logs with [ka_code] and then re-raises. *)
Definition RedisClient_get (key : string) : M (option string) :=
  get_logger 4 ;;
  try_except (redis_GET key)
    (fun exc => logger_error ["ka_code"] ;; raise exc).

(** [await self._redis.set(key, value, ex=ttl)]. *)
Definition redis_SET (key value : string) (ttl : Z) : M unit :=
  fun w =>
    match redis_fault E (trace w) with
    | Some e => (Err e, emit (EvRedisSet key value ttl) w)
    | None =>
        (Ok tt, {| trace := trace w ++ [EvRedisSet key value ttl];
                   redis := <[key := value]> (redis w) |})
    end.

(** [RedisClient.set]: likewise. *)
Definition RedisClient_set (key value : string) (ttl : Z) : M unit :=
  get_logger 4 ;;
  try_except (redis_SET key value ttl)
    (fun exc => logger_error ["ka_code"] ;; raise exc).

End Primitives.

End Py.

(** ** The parsed configuration document *)

(** What [yaml.safe_load] returns for [llm_routes.yaml] and
    [embedding_routes.yaml]: mappings whose keys may be missing.  Values
    are taken to have the type the loaders expect; [None] is an absent
    key.  A mapping is the sequence of its [items()]. *)
Module Yaml.
Import PyStr Py.

Record provider_cfg := {
  cfg_provider_type : option string;
  cfg_endpoint : option string;
  cfg_api_key : option string;
  cfg_model : option pystr;
  cfg_embedding_dim : option Z;
  cfg_timeout_ms : option Z;
  cfg_retries : option Z
}.

Record route_cfg := {
  rcfg_strategy : option string;
  rcfg_providers : option (list string);
  rcfg_weights : option (list Z)
}.

Record document := {
  doc_providers : option (list (string * provider_cfg));
  doc_routes : option (list (string * route_cfg))
}.

(** [cfg[key]]. *)
Definition item {A} (field : option A) (key : string) : result A :=
  match field with
  | Some v => Ok v
  | None => Err (KeyError key)
  end.

(** [cfg.get(key, dflt)]. *)
Definition get {A} (field : option A) (dflt : A) : A :=
  match field with
  | Some v => v
  | None => dflt
  end.

Definition present {A} (field : option A) : bool :=
  match field with Some _ => true | None => false end.

(** The keys the loaders subscript: an entry that has them all. *)
Definition llm_provider_complete (entry : string * provider_cfg) : bool :=
  present (cfg_provider_type (snd entry))
  && present (cfg_endpoint (snd entry))
  && present (cfg_model (snd entry)).

Definition embedding_provider_complete (entry : string * provider_cfg)
  : bool :=
  llm_provider_complete entry && present (cfg_embedding_dim (snd entry)).

Definition route_complete (entry : string * route_cfg) : bool :=
  present (rcfg_strategy (snd entry)) && present (rcfg_providers (snd entry)).

Definition has_default (routes : list (string * route_cfg)) : bool :=
  existsb (fun entry => String.eqb (fst entry) "default") routes.

(** What the design asks of a weighted route, and of every route: the
    loaders check neither. *)
Definition weights_valid (names : list string) (weights : list Z) : bool :=
  (length weights =? length names)%nat && forallb (fun x => 0 <? x) weights.

Definition names_known (catalog : list string) (names : list string) : bool :=
  forallb (fun n => existsb (String.eqb n) catalog) names.

End Yaml.

(** ** [llm_router.py] *)

Module LLMRouter.
Import PyStr Py Yaml.

Record LLMProvider := {
  name : string;
  provider_type : string;
  endpoint : string;
  api_key : string;
  model : pystr;
  timeout_ms : Z;
  retries : Z
}.

Record LLMRoute := {
  route_name : string;
  strategy : string;
  providers : list string;
  weights : option (list Z)
}.

Record LLMRouter := {
  _providers : gmap string LLMProvider;
  _routes : gmap string LLMRoute;
  _default_route : LLMRoute
}.

(** The first loop of [from_yaml_file]. *)
Fixpoint load_providers (items : list (string * provider_cfg))
    (providers : gmap string LLMProvider)
  : result (gmap string LLMProvider) :=
  match items with
  | [] => Ok providers
  | (name, cfg) :: rest =>
      match item (cfg_provider_type cfg) "provider_type" with
      | Err e => Err e
      | Ok ptype =>
      match item (cfg_endpoint cfg) "endpoint" with
      | Err e => Err e
      | Ok endpoint =>
      match item (cfg_model cfg) "model" with
      | Err e => Err e
      | Ok model =>
          load_providers rest
            (<[name := {| name := name;
                          provider_type := ptype;
                          endpoint := endpoint;
                          api_key := get (cfg_api_key cfg) "";
                          model := model;
                          timeout_ms := get (cfg_timeout_ms cfg) 10000;
                          retries := get (cfg_retries cfg) 3 |}]> providers)
      end end end
  end.

(** The second loop of [from_yaml_file]. *)
Fixpoint load_routes (items : list (string * route_cfg))
    (routes : gmap string LLMRoute) (default_route : option LLMRoute)
  : result (gmap string LLMRoute * option LLMRoute) :=
  match items with
  | [] => Ok (routes, default_route)
  | (route_name, rcfg) :: rest =>
      match item (rcfg_strategy rcfg) "strategy" with
      | Err e => Err e
      | Ok strategy =>
      match item (rcfg_providers rcfg) "providers" with
      | Err e => Err e
      | Ok providers =>
          let route := {| route_name := route_name;
                          strategy := strategy;
                          providers := providers;
                          weights := rcfg_weights rcfg |} in
          if String.eqb route_name "default"
          then load_routes rest routes (Some route)
          else load_routes rest (<[route_name := route]> routes) default_route
      end end
  end.

(** [LLMRouter.from_yaml_file], from the parsed document on. *)
Definition from_yaml_file (data : document) : result LLMRouter :=
  let providers_cfg := get (doc_providers data) [] in
  let routes_cfg := get (doc_routes data) [] in
  match load_providers providers_cfg ∅ with
  | Err e => Err e
  | Ok providers =>
      match load_routes routes_cfg ∅ None with
      | Err e => Err e
      | Ok (routes, None) =>
          Err (ValueError "llm_routes.yaml must define a 'default' route")
      | Ok (routes, Some default_route) =>
          Ok {| _providers := providers;
                _routes := routes;
                _default_route := default_route |}
      end
  end.

(** [self._routes.get(use_case, self._default_route)]. *)
Definition _resolve_route (self : LLMRouter) (use_case : string) : LLMRoute :=
  match _routes self !! use_case with
  | Some route => route
  | None => _default_route self
  end.

Definition chat_payload (provider : LLMProvider) (prompt : pystr) : json :=
  JDict [("messages",
          JList [JDict [("role", JStr (of_string "user"));
                        ("content", JStr prompt)]]);
         ("model", JStr (model provider))].

Definition _build_payload (provider : LLMProvider) (prompt : pystr) : json :=
  if String.eqb (provider_type provider) "azure_openai" then
    chat_payload provider prompt
  else if String.eqb (provider_type provider) "groq" then
    chat_payload provider prompt
  else if String.eqb (provider_type provider) "huggingface_api" then
    JDict [("inputs", JStr prompt)]
  else
    JDict [("input", JStr prompt); ("model", JStr (model provider))].

Section Calls.
Context (E : env).

Definition _extract_text (provider : LLMProvider) (data : json)
  : result json :=
  if String.eqb (provider_type provider) "azure_openai"
     || String.eqb (provider_type provider) "groq" then
    match getitem data "choices" with
    | Err e => Err e
    | Ok choices =>
    match getitem0 choices with
    | Err e => Err e
    | Ok choice =>
    match getitem choice "message" with
    | Err e => Err e
    | Ok message => getitem message "content"
    end end end
  else if String.eqb (provider_type provider) "huggingface_api" then
    match data with
    | JList (JDict item :: _) =>
        match assoc "generated_text" item with
        | Some text => Ok text
        | None => Ok (JStr (py_str E data))
        end
    | _ => Ok (JStr (py_str E data))
    end
  else
    Ok (JStr (py_str E data)).

Definition headers (provider : LLMProvider) : option string :=
  if String.eqb (api_key provider) "" then None
  else Some ("Bearer " +:+ api_key provider).

(** The request of one attempt. *)
Definition request_for (provider : LLMProvider) (prompt : pystr) : request :=
  {| req_provider := name provider;
     req_endpoint := endpoint provider;
     req_authorization := headers provider;
     req_timeout_ms := timeout_ms provider;
     req_json := _build_payload provider prompt |}.

(** The body of the [try] in [_call_provider]: one HTTP attempt. *)
Definition attempt_once (provider : LLMProvider) (prompt : pystr) : M json :=
  let! data := post E (request_for provider prompt) in
  lift (_extract_text provider data).

(** What an attempt made after history [h] comes to. *)
Definition attempt_outcome (provider : LLMProvider) (prompt : pystr)
    (h : list event) : result json :=
  match http_post E h (request_for provider prompt) with
  | Ok data => _extract_text provider data
  | Err e => Err e
  end.

(** [for attempt in attempts: try ... except: if attempt == retries: raise],
    then the [raise RuntimeError] after the loop. *)
Fixpoint retry_loop (provider : LLMProvider) (prompt : pystr)
    (attempts : list Z) : M json :=
  match attempts with
  | [] => raise (RuntimeError "LLM provider retries exhausted")
  | attempt :: rest =>
      try_except (attempt_once provider prompt)
        (fun exc =>
           if attempt =? retries provider then raise exc
           else retry_loop provider prompt rest)
  end.

(** [LLMRouter._call_provider]: the logger, then the loop;
    [range(1, retries + 1)] is [seqZ 1 retries]. *)
Definition _call_provider (provider : LLMProvider) (prompt : pystr)
  : M json :=
  get_logger 4 ;;
  retry_loop provider prompt (seqZ 1 (retries provider)).

(** The primary-fallback loop of [generate] and the two [raise]s after
    it.  The [except] sets [last_error], logs with [ka_code], and only
    then reaches [continue]. *)
Fixpoint fallback_loop (candidates : list LLMProvider) (prompt : pystr)
    (last_error : option exn) : M json :=
  match candidates with
  | [] =>
      match last_error with
      | Some e => raise e
      | None => raise (RuntimeError "LLM routing failed without explicit exception")
      end
  | provider :: rest =>
      try_except (_call_provider provider prompt)
        (fun exc =>
           logger_error ["ka_code"] ;;
           fallback_loop rest prompt (Some exc))
  end.

(** [self._providers[name]]. *)
Definition provider_named (self : LLMRouter) (name : string)
  : result LLMProvider :=
  match _providers self !! name with
  | Some p => Ok p
  | None => Err (KeyError name)
  end.

(** Truth value of [route.weights]: neither [None] nor empty. *)
Definition truthy (weights : option (list Z)) : bool :=
  match weights with
  | Some (_ :: _) => true
  | _ => false
  end.

(** [LLMRouter.generate]. *)
Definition generate (self : LLMRouter) (prompt : pystr) (use_case : string)
  : M json :=
  get_logger 4 ;;
  let route := _resolve_route self use_case in
  let! candidates := lift (comprehension (provider_named self) (providers route)) in
  if String.eqb (strategy route) "weighted" && truthy (weights route) then
    let! provider := random_choices E candidates (get (weights route) []) in
    _call_provider provider prompt
  else
    fallback_loop candidates prompt None.

End Calls.

End LLMRouter.

(** ** [embedding_router.py] *)

Module EmbeddingRouter.
Import PyStr Py Yaml.

Record EmbeddingProvider := {
  name : string;
  provider_type : string;
  endpoint : string;
  api_key : string;
  model : pystr;
  embedding_dim : Z;
  timeout_ms : Z;
  retries : Z
}.

Record EmbeddingRoute := {
  route_name : string;
  strategy : string;
  providers : list string;
  weights : option (list Z)
}.

Record EmbeddingRouter := {
  _providers : gmap string EmbeddingProvider;
  _routes : gmap string EmbeddingRoute;
  _default_route : EmbeddingRoute
}.

(** The first loop of [from_yaml_file]. *)
Fixpoint load_providers (items : list (string * provider_cfg))
    (providers : gmap string EmbeddingProvider)
  : result (gmap string EmbeddingProvider) :=
  match items with
  | [] => Ok providers
  | (name, cfg) :: rest =>
      match item (cfg_provider_type cfg) "provider_type" with
      | Err e => Err e
      | Ok ptype =>
      match item (cfg_endpoint cfg) "endpoint" with
      | Err e => Err e
      | Ok endpoint =>
      match item (cfg_model cfg) "model" with
      | Err e => Err e
      | Ok model =>
      match item (cfg_embedding_dim cfg) "embedding_dim" with
      | Err e => Err e
      | Ok dim =>
          load_providers rest
            (<[name := {| name := name;
                          provider_type := ptype;
                          endpoint := endpoint;
                          api_key := get (cfg_api_key cfg) "";
                          model := model;
                          embedding_dim := dim;
                          timeout_ms := get (cfg_timeout_ms cfg) 5000;
                          retries := get (cfg_retries cfg) 3 |}]> providers)
      end end end end
  end.

(** The second loop of [from_yaml_file]. *)
Fixpoint load_routes (items : list (string * route_cfg))
    (routes : gmap string EmbeddingRoute)
    (default_route : option EmbeddingRoute)
  : result (gmap string EmbeddingRoute * option EmbeddingRoute) :=
  match items with
  | [] => Ok (routes, default_route)
  | (route_name, rcfg) :: rest =>
      match item (rcfg_strategy rcfg) "strategy" with
      | Err e => Err e
      | Ok strategy =>
      match item (rcfg_providers rcfg) "providers" with
      | Err e => Err e
      | Ok providers =>
          let route := {| route_name := route_name;
                          strategy := strategy;
                          providers := providers;
                          weights := rcfg_weights rcfg |} in
          if String.eqb route_name "default"
          then load_routes rest routes (Some route)
          else load_routes rest (<[route_name := route]> routes) default_route
      end end
  end.

(** [EmbeddingRouter.from_yaml_file], from the parsed document on. *)
Definition from_yaml_file (data : document) : result EmbeddingRouter :=
  let providers_cfg := get (doc_providers data) [] in
  let routes_cfg := get (doc_routes data) [] in
  match load_providers providers_cfg ∅ with
  | Err e => Err e
  | Ok providers =>
      match load_routes routes_cfg ∅ None with
      | Err e => Err e
      | Ok (routes, None) =>
          Err (ValueError "embedding_routes.yaml must define a 'default' route")
      | Ok (routes, Some default_route) =>
          Ok {| _providers := providers;
                _routes := routes;
                _default_route := default_route |}
      end
  end.

(** [EmbeddingRouter.resolve_route]. *)
Definition resolve_route (self : EmbeddingRouter) (use_case : string)
  : EmbeddingRoute :=
  match _routes self !! use_case with
  | Some route => route
  | None => _default_route self
  end.

(** [EmbeddingRouter.get_provider]: raises [KeyError] if unknown. *)
Definition get_provider (self : EmbeddingRouter) (name : string)
  : result EmbeddingProvider :=
  match _providers self !! name with
  | Some p => Ok p
  | None => Err (KeyError name)
  end.

End EmbeddingRouter.

(** ** [embedding_client.py] *)

Module EmbeddingClient.
Import PyStr Py.
Export EmbeddingRouter.

Record EmbeddingClient := {
  _router : EmbeddingRouter;
  _ttl : Z
}.

(** The default of [cache_ttl_seconds]: seven days. *)
Definition default_cache_ttl_seconds : Z := 7 * 24 * 3600.

(** How one round of the provider loop of [_embed_single] ends: with a
    [return], or by going on to the next provider with the value
    [last_error] then has. *)
Inductive round :=
| Return (vector : json)
| NextProvider (last_error : option exn).

Section Calls.
Context (E : env).

(** [EmbeddingClient._fingerprint]. *)
Definition _fingerprint (text : pystr) (model : pystr) : string :=
  let normalized := normalize text in
  let raw := model ++ of_string "::" ++ normalized in
  sha256_hexdigest E raw.

Definition headers (provider : EmbeddingProvider) : option string :=
  if String.eqb (api_key provider) "" then None
  else Some ("Bearer " +:+ api_key provider).

Definition is_huggingface (ptype : string) : bool :=
  String.eqb ptype "huggingface_api" || String.eqb ptype "huggingface_endpoint".

Definition is_groq_or_ollama (ptype : string) : bool :=
  String.eqb ptype "groq" || String.eqb ptype "ollama".

(** The request body chosen inside [async with]. *)
Definition build_payload (provider : EmbeddingProvider) (text : pystr)
  : result json :=
  let ptype := provider_type provider in
  if String.eqb ptype "azure_openai" then
    Ok (JDict [("input", JStr text); ("model", JStr (model provider))])
  else if is_huggingface ptype then
    Ok (JDict [("inputs", JStr text)])
  else if is_groq_or_ollama ptype then
    Ok (JDict [("input", JStr text); ("model", JStr (model provider))])
  else
    Err (ValueError "Unknown provider_type").

(** [data["data"][0]["embedding"]]. *)
Definition first_embedding (data : json) : result json :=
  match getitem data "data" with
  | Err e => Err e
  | Ok rows =>
  match getitem0 rows with
  | Err e => Err e
  | Ok row => getitem row "embedding"
  end end.

(** The response shapes flattened to one vector. *)
Definition normalize_response (provider : EmbeddingProvider) (data : json)
  : result json :=
  let ptype := provider_type provider in
  if String.eqb ptype "azure_openai" then first_embedding data
  else if is_huggingface ptype then
    match data with
    | JList (JList row :: _) => Ok (JList row)
    | _ => Ok data
    end
  else if is_groq_or_ollama ptype then first_embedding data
  else Ok data.

(** The request carrying [payload] to [provider]. *)
Definition request_with (provider : EmbeddingProvider) (payload : json)
  : request :=
  {| req_provider := name provider;
     req_endpoint := endpoint provider;
     req_authorization := headers provider;
     req_timeout_ms := timeout_ms provider;
     req_json := payload |}.

(** [EmbeddingClient._call_provider]: the logger, then one request, no
    retry.  The final log line evaluates [len(vector)]. *)
Definition _call_provider (provider : EmbeddingProvider) (text : pystr)
  : M json :=
  get_logger 4 ;;
  let! payload := lift (build_payload provider text) in
  let! data := post E (request_with provider payload) in
  let! vector := lift (normalize_response provider data) in
  let! _ := lift (len vector) in
  ret vector.

(** One round of [for provider in providers] in [_embed_single]: the
    [try] block and its [except].  Both log with [ka_code]: the mismatch
    branch inside the [try], before its [continue], and the [except]
    before the strategy test.  After the [if] of the [except] the loop
    body ends, so the loop goes on for the other strategies as well. *)
Definition provider_round (self : EmbeddingClient) (cache_key : string)
    (text : pystr) (strategy : string) (provider : EmbeddingProvider)
    (last_error : option exn) : M round :=
  try_except
    (let! vector := _call_provider provider text in
     let! n := lift (len vector) in
     if negb (n =? embedding_dim provider) then
       logger_error ["ka_code"] ;;
       ret (NextProvider last_error)
     else
       RedisClient_set E cache_key (json_dumps E vector) (_ttl self) ;;
       ret (Return vector))
    (fun exc =>
       logger_error ["ka_code"] ;;
       if String.eqb strategy "primary-fallback" then
         ret (NextProvider (Some exc))
       else
         ret (NextProvider (Some exc))).

(** The provider loop of [_embed_single] and the two [raise]s after
    it. *)
Fixpoint provider_loop (self : EmbeddingClient) (cache_key : string)
    (text : pystr) (strategy : string)
    (candidates : list EmbeddingProvider) (last_error : option exn)
  : M json :=
  match candidates with
  | [] =>
      match last_error with
      | Some e => raise e
      | None =>
          raise (RuntimeError "Embedding pipeline failed without explicit exception")
      end
  | provider :: rest =>
      let! r := provider_round self cache_key text strategy provider last_error in
      match r with
      | Return vector => ret vector
      | NextProvider last_error' =>
          provider_loop self cache_key text strategy rest last_error'
      end
  end.

(** The cache key of a text: fixed by the first provider of the list. *)
Definition cache_key_of (primary : EmbeddingProvider) (text : pystr)
  : string :=
  "emb:" +:+ _fingerprint text (model primary).

(** [if cached: vector = json.loads(cached); if isinstance(vector, list)]:
    the vector to return from the cache, if any. *)
Definition cached_vector (cached : option string) : result (option json) :=
  match cached with
  | None => Ok None
  | Some s =>
      if String.eqb s "" then Ok None
      else
        match json_loads E s with
        | Err e => Err e
        | Ok (JList items) => Ok (Some (JList items))
        | Ok _ => Ok None
        end
  end.

(** [str.encode("utf-8")] succeeds unless the string holds a surrogate
    code point (U+D800 to U+DFFF). *)
Definition encodable (raw : pystr) : bool :=
  forallb (fun c => negb ((55296 <=? c)%N && (c <=? 57343)%N)) raw.

(** The call [self._fingerprint(text, model)]: the digest, or the
    [UnicodeEncodeError] of [encode]. *)
Definition fingerprint_call (text : pystr) (model : pystr) : result string :=
  if encodable (model ++ of_string "::" ++ normalize text)
  then Ok (_fingerprint text model)
  else Err UnicodeEncodeError.

(** The statements of [_embed_single] after its logger is obtained: the
    cache lookup under the first provider's key, then the provider
    loop. *)
Definition embed_single_body (self : EmbeddingClient) (text : pystr)
    (candidates : list EmbeddingProvider) (strategy : string) : M json :=
  match candidates with
  | [] => raise IndexError
  | primary :: _ =>
      let! fingerprint := lift (fingerprint_call text (model primary)) in
      let cache_key := "emb:" +:+ fingerprint in
      let! cached := RedisClient_get E cache_key in
      let! hit := lift (cached_vector cached) in
      match hit with
      | Some vector => ret vector
      | None => provider_loop self cache_key text strategy candidates None
      end
  end.

(** [EmbeddingClient._embed_single]. *)
Definition _embed_single (self : EmbeddingClient) (text : pystr)
    (candidates : list EmbeddingProvider) (strategy : string) : M json :=
  get_logger 4 ;;
  embed_single_body self text candidates strategy.

(** [EmbeddingClient.embed]. *)
Definition embed (self : EmbeddingClient) (texts : list pystr)
    (use_case : string) : M (list json) :=
  get_logger 4 ;;
  let route := resolve_route (_router self) use_case in
  let! candidates :=
    lift (comprehension (get_provider (_router self)) (providers route)) in
  for_each (fun text => _embed_single self text candidates (strategy route))
    texts.

End Calls.

End EmbeddingClient.

(** ** Concrete configurations and environments *)

Module Scenario.
Import PyStr Py Yaml.

(** Stand-ins for the library functions, enough to run the code: the
    properties below hold for every digest and every JSON codec. *)
Definition demo_digest (t : pystr) : string :=
  string_of_list_ascii (map ascii_of_N t).

Definition demo_number (v : json) : string :=
  match v with
  | JNum n => String (ascii_of_N (48 + Z.to_N (n mod 10))) ","
  | _ => "?,"
  end.

Definition demo_dumps (v : json) : string :=
  match v with
  | JList items => "[" +:+ String.concat "" (map demo_number items) +:+ "]"
  | _ => "null"
  end.

Definition vec3 : json := JList [JNum 1; JNum 2; JNum 3].
Definition vec3' : json := JList [JNum 4; JNum 5; JNum 6].
Definition vec512 : json := JList (repeat (JNum 0) 512).

Definition demo_loads (s : string) : result json :=
  if String.eqb s (demo_dumps vec3) then Ok vec3
  else if String.eqb s (demo_dumps vec3') then Ok vec3'
  else Err JSONDecodeError.

Definition mk_env (http : list event -> request -> result json)
    (fault : list event -> option exn) : env :=
  {| http_post := http;
     choices := fun _ _ _ => Ok 0%nat;
     redis_fault := fault;
     sha256_hexdigest := demo_digest;
     json_dumps := demo_dumps;
     json_loads := demo_loads;
     py_str := fun _ => of_string "<repr>" |}.

Definition no_fault : list event -> option exn := fun _ => None.

Definition w0 : world := {| trace := []; redis := ∅ |}.

(** The two texts of the whitespace example: ["a  b\n\nc"] and
    ["a b c"]. *)
Definition text_spaced : pystr := of_string "a  b" ++ [10; 10]%N ++ of_string "c".
Definition text_plain : pystr := of_string "a b c".

(** *** Generation *)

Definition llm_cfg (ptype : string) (retries : Z) : provider_cfg :=
  {| cfg_provider_type := Some ptype;
     cfg_endpoint := Some "https://llm.example/v1";
     cfg_api_key := Some "secret";
     cfg_model := Some (of_string "gpt");
     cfg_embedding_dim := Some 3;
     cfg_timeout_ms := None;
     cfg_retries := Some retries |}.

Definition route (strategy : string) (names : list string)
    (weights : option (list Z)) : route_cfg :=
  {| rcfg_strategy := Some strategy;
     rcfg_providers := Some names;
     rcfg_weights := weights |}.

Definition llm_routes_yaml : document :=
  {| doc_providers :=
       Some [("p1", llm_cfg "azure_openai" 3); ("p2", llm_cfg "groq" 3)];
     doc_routes :=
       Some [("authoring.generate", route "primary-fallback" ["p1"; "p2"] None);
             ("vendor.summary", route "weighted" ["p1"; "p2"] None);
             ("default", route "primary-fallback" ["p1"] None)] |}.

(** A weighted route with a zero weight, a route naming a provider that
    is not in the catalog, and a weighted route with one weight for two
    providers. *)
Definition zero_weight_yaml : document :=
  {| doc_providers :=
       Some [("A", llm_cfg "azure_openai" 3); ("B", llm_cfg "groq" 3)];
     doc_routes := Some [("default", route "weighted" ["A"; "B"] (Some [1; 0]))] |}.

Definition unknown_provider_yaml : document :=
  {| doc_providers := Some [("A", llm_cfg "azure_openai" 3)];
     doc_routes := Some [("default", route "primary-fallback" ["A"; "ghost"] None)] |}.

Definition short_weights_yaml : document :=
  {| doc_providers :=
       Some [("A", llm_cfg "azure_openai" 3); ("B", llm_cfg "groq" 3)];
     doc_routes := Some [("default", route "weighted" ["A"; "B"] (Some [5]))] |}.

Definition llm_router : LLMRouter.LLMRouter :=
  match LLMRouter.from_yaml_file llm_routes_yaml with
  | Ok r => r
  | Err _ =>
      {| LLMRouter._providers := ∅;
         LLMRouter._routes := ∅;
         LLMRouter._default_route :=
           {| LLMRouter.route_name := ""; LLMRouter.strategy := "";
              LLMRouter.providers := []; LLMRouter.weights := None |} |}
  end.

Definition p1 : LLMRouter.LLMProvider :=
  {| LLMRouter.name := "p1"; LLMRouter.provider_type := "azure_openai";
     LLMRouter.endpoint := "https://llm.example/v1";
     LLMRouter.api_key := "secret"; LLMRouter.model := of_string "gpt";
     LLMRouter.timeout_ms := 10000; LLMRouter.retries := 3 |}.

Definition p2 : LLMRouter.LLMProvider :=
  {| LLMRouter.name := "p2"; LLMRouter.provider_type := "groq";
     LLMRouter.endpoint := "https://llm.example/v1";
     LLMRouter.api_key := "secret"; LLMRouter.model := of_string "gpt";
     LLMRouter.timeout_ms := 10000; LLMRouter.retries := 3 |}.

Definition completion (text : string) : json :=
  JDict [("choices",
          JList [JDict [("message", JDict [("content", JStr (of_string text))])]])].

(** [p1] answers every request with [failure]; every other provider
    completes. *)
Definition p1_fails (failure : result json) : env :=
  mk_env (fun _ r => if String.eqb (req_provider r) "p1" then failure
                     else Ok (completion "pong"))
         no_fault.

Definition prompt : pystr := of_string "ping".

(** Requests sent to one provider, and the waits, in a trace. *)
Definition is_post_to (name : string) (ev : event) : bool :=
  match ev with
  | EvPost r => String.eqb (req_provider r) name
  | _ => false
  end.

Definition attempts_against (name : string) (tr : list event) : Z :=
  Z.of_nat (length (filter (fun ev => is_post_to name ev = true) tr)).

Definition waits (tr : list event) : list Z :=
  omap (fun ev => match ev with EvSleep d => Some d | _ => None end) tr.

(** *** Embeddings *)

Definition embedding_cfg (ptype : string) (model : string) (dim : Z)
  : provider_cfg :=
  {| cfg_provider_type := Some ptype;
     cfg_endpoint := Some "https://embed.example/v1";
     cfg_api_key := None;
     cfg_model := Some (of_string model);
     cfg_embedding_dim := Some dim;
     cfg_timeout_ms := None;
     cfg_retries := None |}.

Definition embedding_routes_yaml : document :=
  {| doc_providers :=
       Some [("a", embedding_cfg "azure_openai" "embed-a" 3);
             ("b", embedding_cfg "huggingface_api" "embed-b" 3);
             ("c", embedding_cfg "huggingface_api" "embed-c" 768)];
     doc_routes :=
       Some [("vendor.embedding", route "weighted" ["a"; "b"] (Some [1; 1]));
             ("wide", route "primary-fallback" ["c"] None);
             ("mixed", route "primary-fallback" ["a"; "c"] None);
             ("default", route "primary-fallback" ["a"; "b"] None)] |}.

Definition ea : EmbeddingRouter.EmbeddingProvider :=
  {| EmbeddingRouter.name := "a";
     EmbeddingRouter.provider_type := "azure_openai";
     EmbeddingRouter.endpoint := "https://embed.example/v1";
     EmbeddingRouter.api_key := "";
     EmbeddingRouter.model := of_string "embed-a";
     EmbeddingRouter.embedding_dim := 3;
     EmbeddingRouter.timeout_ms := 5000;
     EmbeddingRouter.retries := 3 |}.

Definition eb : EmbeddingRouter.EmbeddingProvider :=
  {| EmbeddingRouter.name := "b";
     EmbeddingRouter.provider_type := "huggingface_api";
     EmbeddingRouter.endpoint := "https://embed.example/v1";
     EmbeddingRouter.api_key := "";
     EmbeddingRouter.model := of_string "embed-b";
     EmbeddingRouter.embedding_dim := 3;
     EmbeddingRouter.timeout_ms := 5000;
     EmbeddingRouter.retries := 3 |}.

Definition ec : EmbeddingRouter.EmbeddingProvider :=
  {| EmbeddingRouter.name := "c";
     EmbeddingRouter.provider_type := "huggingface_api";
     EmbeddingRouter.endpoint := "https://embed.example/v1";
     EmbeddingRouter.api_key := "";
     EmbeddingRouter.model := of_string "embed-c";
     EmbeddingRouter.embedding_dim := 768;
     EmbeddingRouter.timeout_ms := 5000;
     EmbeddingRouter.retries := 3 |}.

Definition embedding_router : EmbeddingRouter.EmbeddingRouter :=
  match EmbeddingRouter.from_yaml_file embedding_routes_yaml with
  | Ok r => r
  | Err _ =>
      {| EmbeddingRouter._providers := ∅;
         EmbeddingRouter._routes := ∅;
         EmbeddingRouter._default_route :=
           {| EmbeddingRouter.route_name := "";
              EmbeddingRouter.strategy := "";
              EmbeddingRouter.providers := [];
              EmbeddingRouter.weights := None |} |}
  end.

Definition client : EmbeddingClient.EmbeddingClient :=
  {| EmbeddingClient._router := embedding_router;
     EmbeddingClient._ttl := EmbeddingClient.default_cache_ttl_seconds |}.

Definition azure_embedding (vector : json) : json :=
  JDict [("data", JList [JDict [("embedding", vector)]])].

(** [a] answers [answer_a]; [b] returns [vec3']; [c], configured for 768
    dimensions, returns 512 numbers. *)
Definition embedding_http (answer_a : result json) (h : list event)
    (r : request) : result json :=
  if String.eqb (req_provider r) "a" then answer_a
  else if String.eqb (req_provider r) "b" then Ok vec3'
  else Ok vec512.

Definition a_down : env := mk_env (embedding_http (Err ConnectError)) no_fault.
Definition all_up : env :=
  mk_env (embedding_http (Ok (azure_embedding vec3))) no_fault.

(** Redis down for every command. *)
Definition cache_down : env :=
  mk_env (embedding_http (Ok (azure_embedding vec3)))
         (fun _ => Some RedisError).

(** The key of [text_plain] on a route whose first provider is [a], and
    a world whose cache already holds [vec3'] there. *)
Definition key_a : string :=
  EmbeddingClient.cache_key_of all_up ea text_plain.

Definition w_cached : world :=
  {| trace := []; redis := {[ key_a := demo_dumps vec3' ]} |}.

End Scenario.

(** ** Further vocabulary for stating properties *)

Module More.
Import PyStr Py.

(** Characters that are not whitespace. *)
Abbreviation nonspace := (fun c : N => negb (isspace c)).

(** The provider an entry of the [providers] mapping describes, when it
    has the keys the loader subscripts. *)
Definition llm_provider_of (name : string) (cfg : Yaml.provider_cfg)
  : option LLMRouter.LLMProvider :=
  match Yaml.cfg_provider_type cfg, Yaml.cfg_endpoint cfg, Yaml.cfg_model cfg with
  | Some ptype, Some endpoint, Some model =>
      Some {| LLMRouter.name := name;
              LLMRouter.provider_type := ptype;
              LLMRouter.endpoint := endpoint;
              LLMRouter.api_key := Yaml.get (Yaml.cfg_api_key cfg) "";
              LLMRouter.model := model;
              LLMRouter.timeout_ms := Yaml.get (Yaml.cfg_timeout_ms cfg) 10000;
              LLMRouter.retries := Yaml.get (Yaml.cfg_retries cfg) 3 |}
  | _, _, _ => None
  end.

Definition embedding_provider_of (name : string) (cfg : Yaml.provider_cfg)
  : option EmbeddingRouter.EmbeddingProvider :=
  match Yaml.cfg_provider_type cfg, Yaml.cfg_endpoint cfg, Yaml.cfg_model cfg,
        Yaml.cfg_embedding_dim cfg with
  | Some ptype, Some endpoint, Some model, Some dim =>
      Some {| EmbeddingRouter.name := name;
              EmbeddingRouter.provider_type := ptype;
              EmbeddingRouter.endpoint := endpoint;
              EmbeddingRouter.api_key := Yaml.get (Yaml.cfg_api_key cfg) "";
              EmbeddingRouter.model := model;
              EmbeddingRouter.embedding_dim := dim;
              EmbeddingRouter.timeout_ms := Yaml.get (Yaml.cfg_timeout_ms cfg) 5000;
              EmbeddingRouter.retries := Yaml.get (Yaml.cfg_retries cfg) 3 |}
  | _, _, _, _ => None
  end.

End More.

(** ** [utils/error_codes.py] and [utils/exceptions.py] *)

Module ErrorCodes.
Import PyStr Py.

Record ErrorInfo := {
  code : string;
  description : string;
  http_status : Z;
  retriable : bool
}.

Definition info (code description : string) (http_status : Z)
    (retriable : bool) : string * ErrorInfo :=
  (code, {| code := code; description := description;
            http_status := http_status; retriable := retriable |}).

Definition _KA_REGISTRY : list (string * ErrorInfo) :=
  [ ("KA-API-0001", snd (info "KA-API-0001" "Generic API error" 500 false));
    ("KA-API-0002", snd (info "KA-API-0002" "Invalid request payload" 400 false));
    ("KA-DB-0003", snd (info "KA-DB-0003" "Database write/read failure" 500 true));
    ("KA-BUS-0010", snd (info "KA-BUS-0010" "Kafka publish/consume failure" 502 true));
    ("KA-SEC-0051", snd (info "KA-SEC-0051" "Unauthorized or forbidden" 403 false));
    ("KA-SEC-0100", snd (info "KA-SEC-0100" "Security scan failure" 500 true));
    ("KA-LLM-0007", snd (info "KA-LLM-0007" "LLM timeout or provider failure" 504 true));
    ("KA-ML-0001", snd (info "KA-ML-0001" "Model load/inference error" 500 true));
    ("KA-PIPE-0001", snd (info "KA-PIPE-0001" "Metadata extraction failed" 500 true));
    ("KA-PIPE-0002", snd (info "KA-PIPE-0002" "Empty enrichment output" 500 false));
    ("KA-PIPE-0003", snd (info "KA-PIPE-0003" "Chunking failure" 500 true));
    ("KA-IDX-0040", snd (info "KA-IDX-0040" "Index or vector dimension mismatch" 500 true));
    ("KA-SRCH-0001", snd (info "KA-SRCH-0001" "Search query failure" 500 true));
    ("KA-QA-0001", snd (info "KA-QA-0001" "Invalid or empty QA generation output" 500 true));
    ("KA-TPL-0001", snd (info "KA-TPL-0001" "Invalid template schema" 400 false));
    ("KA-PRM-0001", snd (info "KA-PRM-0001" "Invalid prompt JSON" 400 false));
    ("KA-CFG-0001", snd (info "KA-CFG-0001" "Duplicate or invalid configuration" 400 false));
    ("KA-I18N-0001", snd (info "KA-I18N-0001" "Missing or invalid locale" 400 false));
    ("KA-AUD-0001", snd (info "KA-AUD-0001" "Lineage gap or missing audit link" 500 false));
    ("KA-AUD-0002", snd (info "KA-AUD-0002" "Reporting aggregation failure" 500 true));
    ("KA-REG-0001", snd (info "KA-REG-0001" "Invalid provider route configuration" 500 false));
    ("KA-PUB-0001", snd (info "KA-PUB-0001" "Invalid state for publish / version control" 400 false)) ].

(** [get_error_info]: the registered entry, or a generic one. *)
Definition get_error_info (c : string) : ErrorInfo :=
  match assoc c _KA_REGISTRY with
  | Some i => i
  | None => {| code := c; description := "Unknown Sensei error code";
               http_status := 500; retriable := false |}
  end.

(** The classes of [exceptions.py]. *)
Inductive error_class :=
| SenseiError | APIError | DBError | KafkaError | LLMError
| IndexingError | SecurityError | PipelineError | ValidationError.

(** An instance of [SenseiError] or of a subclass. *)
Record sensei_error := {
  err_class : error_class;
  err_info : ErrorInfo;
  err_code : string;
  err_http_status : Z;
  err_retriable : bool;
  err_detail : pystr
}.

(** [SenseiError.__init__(code, message, http_status=, retriable=)]:
    [x or y] takes [y] when [x] is [None], zero or empty. *)
Definition new_error (cls : error_class) (c : string)
    (message : option pystr) (http_status : option Z)
    (retriable : option bool) : sensei_error :=
  let i := get_error_info c in
  {| err_class := cls;
     err_info := i;
     err_code := code i;
     err_http_status :=
       match http_status with
       | Some s => if s =? 0 then ErrorCodes.http_status i else s
       | None => ErrorCodes.http_status i
       end;
     err_retriable :=
       match retriable with
       | Some r => r
       | None => ErrorCodes.retriable i
       end;
     err_detail :=
       match message with
       | Some (c0 :: m) => c0 :: m
       | _ => of_string (description i)
       end |}.

End ErrorCodes.

(** ** [utils/ontology.py] *)

Module Ontology.
Import PyStr Py.

(** What the module needs of Python beyond [env]: floating-point
    numbers with the operations the module applies to them, and three
    library functions.
    - [f_zero], [f_six_tenths]: the literals [0.0] and [0.6];
    - [f_ratio m n]: [m / float(n)]; [f_mean a b]: [(a + b) / 2.0];
    - [f_gt], [f_ge], [f_is_zero]: [>], [>=] and [== 0.0];
    - [f_format_2f x]: [f"{x:.2f}"]; [f_of_json v]: [float(v)];
    - [str_lower]: [str.lower]; [json_loads_str]: [json.loads] on a
      [str]. *)
Class Runtime := {
  float : Type;
  f_zero : float;
  f_six_tenths : float;
  f_ratio : Z -> Z -> float;
  f_mean : float -> float -> float;
  f_gt : float -> float -> bool;
  f_ge : float -> float -> bool;
  f_is_zero : float -> bool;
  f_format_2f : float -> pystr;
  f_of_json : json -> result float;
  str_lower : pystr -> pystr;
  json_loads_str : pystr -> result json
}.

Record OntologyLabel `{Runtime} := {
  doc_kind : pystr;
  area : pystr;
  score : float
}.

(** [ontology.yaml] as parsed, keys possibly missing. *)
Record category_cfg := {
  keywords : option (list pystr)
}.

Record labels_cfg := {
  labels_doc_kind : option (list pystr);
  labels_area : option (list pystr)
}.

Record llm_fallback_cfg `{Runtime} := {
  enabled : option bool;
  use_route : option string;
  min_rule_score : option float;
  labels : option labels_cfg
}.

Record ontology_yaml `{Runtime} := {
  yaml_doc_kinds : option (list (pystr * category_cfg));
  yaml_areas : option (list (pystr * category_cfg));
  yaml_llm_fallback : option llm_fallback_cfg
}.

(** What can be raised: a built-in exception, [AttributeError], or a
    [SenseiError]. *)
Inductive raised :=
| Builtin (e : exn)
| AttributeError
| Sensei (err : ErrorCodes.sensei_error).

Inductive outcome (A : Type) :=
| Returned (a : A)
| Raised (r : raised).
Arguments Returned {A} a.
Arguments Raised {A} r.

(** The module-level state: the world and the router singleton. *)
Record globals := {
  g_world : world;
  _LLM_ROUTER : option LLMRouter.LLMRouter
}.

Fixpoint is_prefix (p s : pystr) : bool :=
  match p, s with
  | [], _ => true
  | _ :: _, [] => false
  | a :: p', b :: s' => (a =? b)%N && is_prefix p' s'
  end.

(** [sub in s] for two strings. *)
Fixpoint contains (s sub : pystr) : bool :=
  is_prefix sub s
  || match s with
     | [] => false
     | _ :: s' => contains s' sub
     end.

Fixpoint pystr_eqb (a b : pystr) : bool :=
  match a, b with
  | [], [] => true
  | x :: a', y :: b' => (x =? y)%N && pystr_eqb a' b'
  | _, _ => false
  end.

Definition general : pystr := of_string "general".

Section Config.
Context {R : Runtime}.

(** The configuration [_load_ontology_config] falls back to when
    [ontology.yaml] is missing. *)
Definition default_config : ontology_yaml :=
  {| yaml_doc_kinds := Some [(general, {| keywords := Some [] |})];
     yaml_areas := Some [(general, {| keywords := Some [] |})];
     yaml_llm_fallback :=
       Some {| enabled := Some false;
               use_route := Some "default";
               min_rule_score := Some f_six_tenths;
               labels := Some {| labels_doc_kind := Some [general];
                                 labels_area := Some [general] |} |} |}.

(** [_load_ontology_config]: [file] is what reading [ONTOLOGY_YAML]
    gives, [None] when the path is unset or the file missing. *)
Definition _load_ontology_config (file : option ontology_yaml)
  : ontology_yaml :=
  match file with
  | Some config => config
  | None => default_config
  end.

(** [{name: cfg.get("keywords", []) for name, cfg in ....items()}]. *)
Definition keyword_table (section : option (list (pystr * category_cfg)))
  : list (pystr * list pystr) :=
  map (fun entry => (fst entry, Yaml.get (keywords (snd entry)) []))
      (Yaml.get section []).

Definition _DOC_KINDS (_CONFIG : ontology_yaml) := keyword_table (yaml_doc_kinds _CONFIG).
Definition _AREAS (_CONFIG : ontology_yaml) := keyword_table (yaml_areas _CONFIG).

(** [_CONFIG.get("llm_fallback", {}) or {}]. *)
Definition _LLM_CFG (_CONFIG : ontology_yaml) : llm_fallback_cfg :=
  Yaml.get (yaml_llm_fallback _CONFIG)
    {| enabled := None; use_route := None;
       min_rule_score := None; labels := None |}.

(** The loop of [_score_category]. *)
Fixpoint score_loop (lower : pystr) (categories : list (pystr * list pystr))
    (best_cat : pystr) (best_score : float) : pystr * float :=
  match categories with
  | [] => (best_cat, best_score)
  | (name, kws) :: rest =>
      match kws with
      | [] => score_loop lower rest best_cat best_score
      | _ :: _ =>
          let matches :=
            length (List.filter (fun kw => contains lower (str_lower kw)) kws) in
          if (matches =? 0)%nat then score_loop lower rest best_cat best_score
          else
            let score := f_ratio (Z.of_nat matches) (Z.of_nat (length kws)) in
            if f_gt score best_score
            then score_loop lower rest name score
            else score_loop lower rest best_cat best_score
      end
  end.

Definition _score_category (text : pystr)
    (categories : list (pystr * list pystr)) : pystr * float :=
  let lower := str_lower text in
  let '(best_cat, best_score) := score_loop lower categories general f_zero in
  if f_is_zero best_score
     && existsb (fun entry => pystr_eqb general (fst entry)) categories
  then (general, best_score)
  else (best_cat, best_score).

Definition _rule_based_classify (_CONFIG : ontology_yaml) (text : pystr)
  : OntologyLabel :=
  let '(doc_kind, kind_score) := _score_category text (_DOC_KINDS _CONFIG) in
  let '(area, area_score) := _score_category text (_AREAS _CONFIG) in
  let score :=
    if negb (f_is_zero kind_score) || negb (f_is_zero area_score)
    then f_mean kind_score area_score
    else f_zero in
  {| doc_kind := doc_kind; area := area; score := score |}.

Section Calls.
Context (E : env).
(** What reading and parsing [settings.LLM_YAML] gives, and [str(e)]. *)
Context (llm_yaml : result Yaml.document).
Context (str_of_exception : raised -> pystr).

(** [_get_llm_router]: the singleton, loaded on first use. *)
Definition _get_llm_router (g : globals) : outcome LLMRouter.LLMRouter * globals :=
  match _LLM_ROUTER g with
  | Some router => (Returned router, g)
  | None =>
      match llm_yaml with
      | Err e => (Raised (Builtin e), g)
      | Ok data =>
          match LLMRouter.from_yaml_file data with
          | Err e => (Raised (Builtin e), g)
          | Ok router =>
              (Returned router,
               {| g_world := g_world g; _LLM_ROUTER := Some router |})
          end
      end
  end.

Definition nl : pystr := [10%N].

Definition system_prompt : pystr :=
  of_string "You are an ontology classifier for IT documentation. "
  ++ of_string "Respond with a single JSON object only.".

Definition user_prompt (doc_kind_labels area_labels : list pystr)
    (text : pystr) (base : OntologyLabel) : pystr :=
  nl
  ++ of_string "Available doc_kind labels: "
  ++ join (of_string ", ") doc_kind_labels ++ nl
  ++ of_string "Available area labels: "
  ++ join (of_string ", ") area_labels ++ nl
  ++ nl
  ++ of_string "Classify the following text into one doc_kind and one area." ++ nl
  ++ of_string "Return JSON with exactly: doc_kind, area, score (0.0"
  ++ [8211%N] ++ of_string "1.0)." ++ nl
  ++ nl
  ++ of_string "Text:" ++ nl
  ++ of_string "<<<" ++ nl
  ++ firstn 4000 text ++ nl
  ++ of_string ">>>" ++ nl
  ++ nl
  ++ of_string "Current rule-based guess:" ++ nl
  ++ of_string "doc_kind = " ++ doc_kind base ++ nl
  ++ of_string "area = " ++ area base ++ nl
  ++ of_string "score = " ++ f_format_2f (score base) ++ nl.

Definition build_prompt (doc_kind_labels area_labels : list pystr)
    (text : pystr) (base : OntologyLabel) : pystr :=
  of_string "[SYSTEM]" ++ nl ++ system_prompt ++ nl ++ nl
  ++ of_string "[USER]" ++ nl
  ++ user_prompt doc_kind_labels area_labels text base.

(** The statements of the [try] block after [router.generate]
    returned [raw]. *)
Definition parse_label (raw : json) (base : OntologyLabel)
  : outcome OntologyLabel :=
  match raw with
  | JStr s =>
      match json_loads_str s with
      | Err e => Raised (Builtin e)
      | Ok (JDict d) =>
          let doc_kind :=
            match assoc "doc_kind" d with
            | Some v => py_str E v
            | None => doc_kind base
            end in
          let area :=
            match assoc "area" d with
            | Some v => py_str E v
            | None => area base
            end in
          match assoc "score" d with
          | None =>
              Returned {| doc_kind := doc_kind; area := area;
                          score := score base |}
          | Some v =>
              match f_of_json v with
              | Ok x =>
                  Returned {| doc_kind := doc_kind; area := area; score := x |}
              | Err TypeError | Err (ValueError _) =>
                  Returned {| doc_kind := doc_kind; area := area;
                              score := score base |}
              | Err e => Raised (Builtin e)
              end
          end
      | Ok _ => Raised AttributeError
      end
  | _ => Raised (Builtin TypeError)
  end.

(** [raise LLMError("KA-LLM-0007", f"Ontology LLM fallback failed: {e}")]. *)
Definition fallback_failed (e : raised) : raised :=
  Sensei (ErrorCodes.new_error ErrorCodes.LLMError "KA-LLM-0007"
            (Some (of_string "Ontology LLM fallback failed: "
                   ++ str_of_exception e))
            None None).

Definition truth (flag : option bool) : bool := Yaml.get flag false.

(** [_llm_enrich_ontology]. *)
Definition _llm_enrich_ontology (_CONFIG : ontology_yaml) (text : pystr)
    (base : OntologyLabel) (g : globals) : outcome OntologyLabel * globals :=
  let cfg := _LLM_CFG _CONFIG in
  if negb (truth (enabled cfg)) then (Returned base, g)
  else
    let route := Yaml.get (use_route cfg) "ontology.classify" in
    let labels_cfg :=
      Yaml.get (labels cfg)
        {| labels_doc_kind := None; labels_area := None |} in
    let doc_kind_labels :=
      Yaml.get (labels_doc_kind labels_cfg) [doc_kind base] in
    let area_labels := Yaml.get (labels_area labels_cfg) [area base] in
    match _get_llm_router g with
    | (Raised r, g1) => (Raised r, g1)
    | (Returned router, g1) =>
        let prompt := build_prompt doc_kind_labels area_labels text base in
        match LLMRouter.generate E router prompt route (g_world g1) with
        | (Err e, w') =>
            (Raised (fallback_failed (Builtin e)),
             {| g_world := w'; _LLM_ROUTER := _LLM_ROUTER g1 |})
        | (Ok raw, w') =>
            (match parse_label raw base with
             | Returned label => Returned label
             | Raised r => Raised (fallback_failed r)
             end,
             {| g_world := w'; _LLM_ROUTER := _LLM_ROUTER g1 |})
        end
    end.

(** [classify_ontology]. *)
Definition classify_ontology (_CONFIG : ontology_yaml) (text : pystr)
    (g : globals) : outcome OntologyLabel * globals :=
  let base := _rule_based_classify _CONFIG text in
  let cfg := _LLM_CFG _CONFIG in
  let min_rule_score := Yaml.get (min_rule_score cfg) f_six_tenths in
  if negb (truth (enabled cfg)) then (Returned base, g)
  else if f_ge (score base) min_rule_score then (Returned base, g)
  else
    match _llm_enrich_ontology _CONFIG text base g with
    | (Returned enriched, g') => (Returned enriched, g')
    | (Raised (Sensei err), g') =>
        match ErrorCodes.err_class err with
        | ErrorCodes.LLMError => (Returned base, g')
        | _ => (Raised (Sensei err), g')
        end
    | (Raised r, g') => (Raised r, g')
    end.

End Calls.
End Config.

End Ontology.

(** ** More concrete configurations *)

Module Scenario2.
Import PyStr Py Yaml Scenario.

(** A provider that refuses the first two requests of a run and then
    answers. *)
Definition flaky : env :=
  mk_env (fun h _ => if (length h <? 2)%nat then Err ConnectError
                     else Ok (completion "pong"))
         no_fault.

(** A weighted route with weights. *)
Definition weighted_yaml : document :=
  {| doc_providers :=
       Some [("p1", llm_cfg "azure_openai" 3); ("p2", llm_cfg "groq" 3)];
     doc_routes := Some [("default", route "weighted" ["p1"; "p2"] (Some [1; 1]))] |}.

Definition no_routes : LLMRouter.LLMRoute :=
  {| LLMRouter.route_name := ""; LLMRouter.strategy := "";
     LLMRouter.providers := []; LLMRouter.weights := None |}.

Definition llm_router_of (data : document) : LLMRouter.LLMRouter :=
  match LLMRouter.from_yaml_file data with
  | Ok r => r
  | Err _ =>
      {| LLMRouter._providers := ∅; LLMRouter._routes := ∅;
         LLMRouter._default_route := no_routes |}
  end.

(** Stand-ins for Python's floats and library functions, enough to run
    the classifier: scores in hundredths. *)
Definition demo_runtime : Ontology.Runtime :=
  {| Ontology.float := Z;
     Ontology.f_zero := 0;
     Ontology.f_six_tenths := 60;
     Ontology.f_ratio := fun m n => 100 * m / n;
     Ontology.f_mean := fun a b => (a + b) / 2;
     Ontology.f_gt := Z.gtb;
     Ontology.f_ge := Z.geb;
     Ontology.f_is_zero := fun x => x =? 0;
     Ontology.f_format_2f := fun _ => of_string "0.00";
     Ontology.f_of_json :=
       fun v => match v with JNum n => Ok n | _ => Err TypeError end;
     Ontology.str_lower := fun s => s;
     Ontology.json_loads_str :=
       fun s => if Ontology.pystr_eqb s (of_string "{}") then Ok (JDict [])
                else Err JSONDecodeError |}.

Definition ontology_config : @Ontology.ontology_yaml demo_runtime :=
  {| Ontology.yaml_doc_kinds :=
       Some [(of_string "how-to",
              {| Ontology.keywords := Some [of_string "install"; of_string "steps"] |});
             (Ontology.general, {| Ontology.keywords := Some [] |})];
     Ontology.yaml_areas :=
       Some [(of_string "network",
              {| Ontology.keywords := Some [of_string "dns"; of_string "vpn"] |})];
     Ontology.yaml_llm_fallback :=
       Some (@Ontology.Build_llm_fallback_cfg demo_runtime
               (Some true) None None None) |}.

Definition g0 : Ontology.globals :=
  {| Ontology.g_world := w0; Ontology._LLM_ROUTER := None |}.

Definition no_text : Ontology.raised -> pystr := fun _ => of_string "error".

End Scenario2.

(** * Properties *)

(** ** Text normalization *)

Module PyStrFacts.
Import PyStr.

Lemma split_from_space w c r :
  isspace c = true -> split_from w (c :: r) = flush w ++ split r.
Proof. intros Hc. simpl. now rewrite Hc. Qed.

Lemma split_from_subst l : forall w c c' r,
  isspace c = true -> isspace c' = true ->
  split_from w (l ++ c :: r) = split_from w (l ++ c' :: r).
Proof.
  induction l as [|x l IH]; intros w c c' r Hc Hc'.
  - simpl app. now rewrite !split_from_space.
  - simpl. destruct (isspace x); [f_equal|]; now apply IH.
Qed.

Lemma split_from_grow l : forall w c c' r,
  isspace c = true -> isspace c' = true ->
  split_from w (l ++ c :: r) = split_from w (l ++ c :: c' :: r).
Proof.
  induction l as [|x l IH]; intros w c c' r Hc Hc'.
  - simpl app. rewrite !split_from_space by assumption.
    unfold split. now rewrite (split_from_space [] c' r).
  - simpl. destruct (isspace x); [f_equal|]; now apply IH.
Qed.

Lemma split_from_trail l : forall w c,
  isspace c = true -> split_from w l = split_from w (l ++ [c]).
Proof.
  induction l as [|x l IH]; intros w c Hc.
  - simpl. rewrite Hc. simpl. now rewrite app_nil_r.
  - simpl. destruct (isspace x); [f_equal|]; now apply IH.
Qed.

(** Whitespace-only edits do not change the words. *)
Lemma ws_equiv_split t u : ws_equiv t u -> split t = split u.
Proof.
  induction 1 as [t|t u _ IH|t u v _ IH1 _ IH2|l c c' r Hc Hc'
                 |l c c' r Hc Hc'|c r Hc|l c Hc].
  - reflexivity.
  - now symmetry.
  - now transitivity (split u).
  - now apply split_from_subst.
  - now apply split_from_grow.
  - unfold split at 2. now rewrite split_from_space.
  - now apply split_from_trail.
Qed.

(** A whitespace-only edit stays one behind a whitespace character. *)
Lemma ws_equiv_after_space t u :
  ws_equiv t u ->
  forall l c, isspace c = true -> ws_equiv (l ++ c :: t) (l ++ c :: u).
Proof.
  induction 1 as [t|t u _ IH|t u v _ IH1 _ IH2|l0 c0 c0' r Hc0 Hc0'
                 |l0 c0 c0' r Hc0 Hc0'|c0 r Hc0|l0 c0 Hc0]; intros l c Hc.
  - apply ws_refl.
  - apply ws_sym. now apply IH.
  - eapply ws_trans; [now apply IH1 | now apply IH2].
  - replace (l ++ c :: l0 ++ c0 :: r) with ((l ++ c :: l0) ++ c0 :: r)
      by now rewrite <- app_assoc.
    replace (l ++ c :: l0 ++ c0' :: r) with ((l ++ c :: l0) ++ c0' :: r)
      by now rewrite <- app_assoc.
    now apply ws_subst.
  - replace (l ++ c :: l0 ++ c0 :: r) with ((l ++ c :: l0) ++ c0 :: r)
      by now rewrite <- app_assoc.
    replace (l ++ c :: l0 ++ c0 :: c0' :: r)
      with ((l ++ c :: l0) ++ c0 :: c0' :: r)
      by now rewrite <- app_assoc.
    now apply ws_grow.
  - now apply ws_grow.
  - replace (l ++ c :: l0 ++ [c0]) with ((l ++ c :: l0) ++ [c0])
      by now rewrite <- app_assoc.
    now apply ws_trail.
Qed.

Lemma isspace_SPACE : isspace SPACE = true.
Proof. reflexivity. Qed.

Lemma join_cons_nonempty sep w ws :
  ws <> [] -> join sep (w :: ws) = w ++ sep ++ join sep ws.
Proof. destruct ws; [congruence | reflexivity]. Qed.

(** Joining the words found from any scanning state only edits
    whitespace. *)
Lemma ws_equiv_join_split_from s : forall w,
  ws_equiv (rev w ++ s) (join [SPACE] (split_from w s)).
Proof.
  induction s as [|c s IH]; intros w.
  - rewrite app_nil_r. destruct w; simpl; apply ws_refl.
  - simpl split_from. destruct (isspace c) eqn:Hc.
    + specialize (IH []). simpl in IH. fold (split s) in IH.
      destruct w as [|x w].
      * simpl. eapply ws_trans; [apply ws_sym, ws_lead, Hc | exact IH].
      * change (flush (x :: w)) with [rev (x :: w)].
        change ([rev (x :: w)] ++ split_from [] s)
          with (rev (x :: w) :: split s).
        destruct (split s) as [|w1 ws] eqn:Hs.
        -- simpl join in *.
           eapply ws_trans.
           ++ apply (ws_equiv_after_space _ _ IH (rev (x :: w)) c Hc).
           ++ apply ws_sym, ws_trail, Hc.
        -- rewrite join_cons_nonempty by discriminate.
           eapply ws_trans.
           ++ apply (ws_equiv_after_space _ _ IH (rev (x :: w)) c Hc).
           ++ apply (ws_subst (rev (x :: w)) c SPACE); [exact Hc | reflexivity].
    + specialize (IH (c :: w)). simpl rev in IH.
      now rewrite <- app_assoc in IH.
Qed.

(** Normalizing is itself a whitespace-only edit. *)
Lemma ws_equiv_normalize t : ws_equiv t (normalize t).
Proof. exact (ws_equiv_join_split_from t []). Qed.

(** The edits of [ws_equiv] are exactly those normalization forgets. *)
Lemma ws_equiv_iff_normalize t u :
  ws_equiv t u <-> normalize t = normalize u.
Proof.
  split.
  - intros H. unfold normalize. now rewrite (ws_equiv_split _ _ H).
  - intros H. eapply ws_trans; [apply ws_equiv_normalize|].
    rewrite H. apply ws_sym, ws_equiv_normalize.
Qed.

Lemma split_from_words s : forall w,
  Forall (fun c => isspace c = false) w ->
  Forall is_word (split_from w s).
Proof.
  induction s as [|c s IH]; intros w Hw.
  - destruct w as [|x w]; simpl; constructor; [|constructor].
    split.
    + intros Hnil. apply (f_equal (@length N)) in Hnil.
      rewrite length_app in Hnil. simpl in Hnil. lia.
    + apply Forall_app. split; [now apply Forall_rev; inversion Hw | inversion Hw; now repeat constructor].
  - simpl. destruct (isspace c) eqn:Hc.
    + apply Forall_app. split; [|apply IH; constructor].
      destruct w as [|x w]; simpl; constructor; [|constructor].
      split.
      * intros Hnil. apply (f_equal (@length N)) in Hnil.
        rewrite length_app in Hnil. simpl in Hnil. lia.
      * apply Forall_app. split; [now apply Forall_rev; inversion Hw | inversion Hw; now repeat constructor].
    + apply IH. now constructor.
Qed.

Lemma normalize_normal_form t : normal_form (normalize t).
Proof.
  exists (split t). split; [|reflexivity].
  apply split_from_words. constructor.
Qed.

End PyStrFacts.

(** ** The LLM router: logging, and the retry loop *)

Module LLMRouterFacts.
Import PyStr Py Yaml LLMRouter.

Section Facts.
Context (E : env).

Lemma after_0 w ev : after w ev 0 = w.
Proof. destruct w. unfold after. simpl. now rewrite app_nil_r. Qed.

Lemma after_S w ev n : after (emit ev w) ev n = after w ev (S n).
Proof.
  unfold after, emit. simpl. f_equal.
  rewrite <- app_assoc. reflexivity.
Qed.

Lemma attempt_once_run p prompt w :
  attempt_once E p prompt w
  = (attempt_outcome E p prompt (trace w),
     emit (EvPost (request_for p prompt)) w).
Proof.
  unfold attempt_once, attempt_outcome, bind, post, lift.
  destruct (http_post E (trace w) (request_for p prompt)); reflexivity.
Qed.

(** While every attempt fails, the loop over [first, first+1, ..] posts
    once per attempt and stops with the error of the attempt numbered
    [retries]. *)
Lemma retry_loop_all_fail p prompt :
  (forall h, is_ok (attempt_outcome E p prompt h) = false) ->
  forall (n : nat) (first : Z) (w : world),
    first + Z.of_nat n = retries p ->
    retry_loop E p prompt (seqZ first (Z.of_nat (S n))) w
    = (attempt_outcome E p prompt
         (trace w ++ repeat (EvPost (request_for p prompt)) n),
       after w (EvPost (request_for p prompt)) (S n)).
Proof.
  intros Hfail n. induction n as [|n IH]; intros first w Hlast.
  - rewrite seqZ_cons by lia. simpl retry_loop.
    unfold try_except. rewrite attempt_once_run.
    specialize (Hfail (trace w)).
    simpl repeat. rewrite app_nil_r.
    destruct (attempt_outcome E p prompt (trace w)) as [v|e]; [discriminate|].
    replace (first =? retries p) with true by (symmetry; apply Z.eqb_eq; lia).
    unfold raise. rewrite <- after_S, after_0. reflexivity.
  - rewrite seqZ_cons by lia. simpl retry_loop.
    unfold try_except. rewrite attempt_once_run.
    pose proof (Hfail (trace w)) as Hw.
    destruct (attempt_outcome E p prompt (trace w)) as [v|e]; [discriminate|].
    replace (first =? retries p) with false by (symmetry; apply Z.eqb_neq; lia).
    replace (Z.pred (Z.of_nat (S (S n)))) with (Z.of_nat (S n)) by lia.
    rewrite IH by lia.
    rewrite after_S. f_equal. f_equal.
    unfold emit. simpl. rewrite <- app_assoc. reflexivity.
Qed.

(** While every attempt fails, the loop over [range(1, retries + 1)]
    costs exactly [retries] requests (none when [retries <= 0]), with
    nothing in between, and raises: the error of the last attempt, or
    [RuntimeError] when there was no attempt. *)
Lemma retry_loop_range_all_fail p prompt w :
  (forall h, is_ok (attempt_outcome E p prompt h) = false) ->
  exists e,
    retry_loop E p prompt (seqZ 1 (retries p)) w
    = (Err e, after w (EvPost (request_for p prompt)) (Z.to_nat (retries p)))
    /\ (1 <= retries p ->
        attempt_outcome E p prompt
          (trace w ++ repeat (EvPost (request_for p prompt))
                        (Z.to_nat (retries p) - 1)) = Err e)
    /\ (retries p <= 0 -> e = RuntimeError "LLM provider retries exhausted").
Proof.
  intros Hfail.
  destruct (Z_lt_le_dec (retries p) 1) as [Hle|Hge].
  - exists (RuntimeError "LLM provider retries exhausted").
    split; [|split; [lia | reflexivity]].
    rewrite seqZ_nil by lia. simpl.
    replace (Z.to_nat (retries p)) with 0%nat by lia.
    now rewrite after_0.
  - pose proof (retry_loop_all_fail p prompt Hfail
                  (Z.to_nat (retries p) - 1) 1 w) as Hloop.
    replace (Z.of_nat (S (Z.to_nat (retries p) - 1))) with (retries p)
      in Hloop by lia.
    replace (S (Z.to_nat (retries p) - 1)) with (Z.to_nat (retries p))
      in Hloop by lia.
    specialize (Hfail (trace w ++ repeat (EvPost (request_for p prompt))
                                    (Z.to_nat (retries p) - 1))).
    destruct (attempt_outcome E p prompt
                (trace w ++ repeat (EvPost (request_for p prompt))
                              (Z.to_nat (retries p) - 1))) as [v|e] eqn:Hout;
      [discriminate|].
    exists e. split; [|split; [reflexivity | lia]].
    apply Hloop. lia.
Qed.

(** [_call_provider] and [generate] call [get_logger] with four
    positional arguments as their first statement: they raise
    [TypeError] before anything else happens.  So does the fallback loop
    on its first candidate, whose [except] logs with [ka_code]. *)
Lemma call_provider_raises p prompt w :
  _call_provider E p prompt w = (Err TypeError, w).
Proof. reflexivity. Qed.

Lemma fallback_loop_raises p rest prompt last w :
  fallback_loop E (p :: rest) prompt last w = (Err TypeError, w).
Proof. reflexivity. Qed.

Lemma generate_raises self prompt use_case w :
  generate E self prompt use_case w = (Err TypeError, w).
Proof. reflexivity. Qed.



End Facts.
End LLMRouterFacts.

(** ** The embedding client *)

Module EmbeddingClientFacts.
Import PyStr Py Yaml EmbeddingClient.

Section Facts.
Context (E : env).

(** [RedisClient.get] and [RedisClient.set] call [get_logger] with four
    positional arguments before their [try]: no Redis command is sent. *)
Lemma redis_get_raises key w : RedisClient_get E key w = (Err TypeError, w).
Proof. reflexivity. Qed.

Lemma redis_set_raises key value ttl w :
  RedisClient_set E key value ttl w = (Err TypeError, w).
Proof. reflexivity. Qed.

(** So do [_call_provider], [_embed_single] and [embed], as their first
    statement. *)
Lemma embedding_call_provider_raises p text w :
  _call_provider E p text w = (Err TypeError, w).
Proof. reflexivity. Qed.

Lemma embed_single_raises self text candidates strategy w :
  _embed_single E self text candidates strategy w = (Err TypeError, w).
Proof. reflexivity. Qed.

Lemma embed_raises self texts use_case w :
  embed E self texts use_case w = (Err TypeError, w).
Proof. reflexivity. Qed.


(** C8.  Texts that differ only in their whitespace runs have the same
    normalized form, hence the same fingerprint and cache key for a
    model; the normalized form is itself such an edit of the text, made
    of whitespace-free words separated by single spaces; and
    ["a  b\n\nc"] and ["a b c"] normalize alike. *)
Theorem fingerprint_whitespace_stable (t1 t2 model : pystr) :
  ws_equiv t1 t2 ->
  normalize t1 = normalize t2
  /\ _fingerprint E t1 model = _fingerprint E t2 model
  /\ ws_equiv t1 (normalize t1)
  /\ normal_form (normalize t1)
  /\ normalize Scenario.text_spaced = normalize Scenario.text_plain.
Proof.
  intros H. apply PyStrFacts.ws_equiv_iff_normalize in H.
  split; [exact H|]. split.
  - unfold _fingerprint. now rewrite H.
  - split; [apply PyStrFacts.ws_equiv_normalize|].
    split; [apply PyStrFacts.normalize_normal_form | reflexivity].
Qed.

End Facts.
End EmbeddingClientFacts.

(** ** Loading the configuration and resolving a route *)

Module ConfigFacts.
Import PyStr Py Yaml.

Lemma item_present {A} (field : option A) key :
  present field = true -> exists v, item field key = Ok v.
Proof. destruct field as [v|]; [now exists v | discriminate]. Qed.

Lemma item_absent {A} (field : option A) key :
  present field = false -> item field key = Err (KeyError key).
Proof. now destruct field. Qed.

Lemma llm_load_providers items : forall acc,
  if forallb llm_provider_complete items
  then exists m, LLMRouter.load_providers items acc = Ok m
  else exists k, LLMRouter.load_providers items acc = Err (KeyError k)
                 /\ In k ["provider_type"; "endpoint"; "model"].
Proof.
  induction items as [|[name cfg] rest IH]; intros acc; simpl.
  - now exists acc.
  - unfold llm_provider_complete at 1. simpl.
    destruct (cfg_provider_type cfg) as [ptype|]; simpl;
      [|exists "provider_type"; auto].
    destruct (cfg_endpoint cfg) as [endpoint|]; simpl;
      [|exists "endpoint"; auto].
    destruct (cfg_model cfg) as [model|]; simpl;
      [|exists "model"; auto].
    apply IH.
Qed.

Lemma embedding_load_providers items : forall acc,
  if forallb embedding_provider_complete items
  then exists m, EmbeddingRouter.load_providers items acc = Ok m
  else exists k, EmbeddingRouter.load_providers items acc = Err (KeyError k)
                 /\ In k ["provider_type"; "endpoint"; "model"; "embedding_dim"].
Proof.
  induction items as [|[name cfg] rest IH]; intros acc; simpl.
  - now exists acc.
  - unfold embedding_provider_complete at 1, llm_provider_complete. simpl.
    destruct (cfg_provider_type cfg) as [ptype|]; simpl;
      [|exists "provider_type"; auto].
    destruct (cfg_endpoint cfg) as [endpoint|]; simpl;
      [|exists "endpoint"; auto].
    destruct (cfg_model cfg) as [model|]; simpl;
      [|exists "model"; auto].
    destruct (cfg_embedding_dim cfg) as [dim|]; simpl;
      [|exists "embedding_dim"; auto 6].
    apply IH.
Qed.

Lemma llm_load_routes items : forall routes d,
  if forallb route_complete items
  then exists rs d',
         LLMRouter.load_routes items routes d = Ok (rs, d')
         /\ present d' = present d || has_default items
  else exists k, LLMRouter.load_routes items routes d = Err (KeyError k)
                 /\ In k ["strategy"; "providers"].
Proof.
  induction items as [|[name rcfg] rest IH]; intros routes d; simpl.
  - exists routes, d. now rewrite orb_false_r.
  - unfold route_complete at 1. simpl.
    destruct (rcfg_strategy rcfg) as [strategy|]; simpl;
      [|exists "strategy"; auto].
    destruct (rcfg_providers rcfg) as [names|]; simpl;
      [|exists "providers"; auto].
    destruct (String.eqb name "default"); simpl.
    + match goal with
      | |- context [LLMRouter.load_routes rest routes (Some ?r)] =>
          specialize (IH routes (Some r))
      end.
      destruct (forallb route_complete rest); [|exact IH].
      destruct IH as (rs & d' & Hload & Hd). exists rs, d'.
      split; [exact Hload|]. rewrite Hd. simpl. now rewrite orb_true_r.
    + match goal with
      | |- context [LLMRouter.load_routes rest ?m d] => specialize (IH m d)
      end.
      exact IH.
Qed.

Lemma embedding_load_routes items : forall routes d,
  if forallb route_complete items
  then exists rs d',
         EmbeddingRouter.load_routes items routes d = Ok (rs, d')
         /\ present d' = present d || has_default items
  else exists k, EmbeddingRouter.load_routes items routes d = Err (KeyError k)
                 /\ In k ["strategy"; "providers"].
Proof.
  induction items as [|[name rcfg] rest IH]; intros routes d; simpl.
  - exists routes, d. now rewrite orb_false_r.
  - unfold route_complete at 1. simpl.
    destruct (rcfg_strategy rcfg) as [strategy|]; simpl;
      [|exists "strategy"; auto].
    destruct (rcfg_providers rcfg) as [names|]; simpl;
      [|exists "providers"; auto].
    destruct (String.eqb name "default"); simpl.
    + match goal with
      | |- context [EmbeddingRouter.load_routes rest routes (Some ?r)] =>
          specialize (IH routes (Some r))
      end.
      destruct (forallb route_complete rest); [|exact IH].
      destruct IH as (rs & d' & Hload & Hd). exists rs, d'.
      split; [exact Hload|]. rewrite Hd. simpl. now rewrite orb_true_r.
    + match goal with
      | |- context [EmbeddingRouter.load_routes rest ?m d] =>
          specialize (IH m d)
      end.
      exact IH.
Qed.


(** The default route of a loaded router is the entry named [default],
    which is kept out of the table of routes. *)
Lemma llm_load_routes_default items : forall routes d rs d',
  (forall r, d = Some r -> LLMRouter.route_name r = "default") ->
  routes !! "default" = None ->
  LLMRouter.load_routes items routes d = Ok (rs, d') ->
  (forall r, d' = Some r -> LLMRouter.route_name r = "default")
  /\ rs !! "default" = None.
Proof.
  induction items as [|[name rcfg] rest IH]; intros routes d rs d' Hd Hr; simpl.
  - intros [= <- <-]. now split.
  - destruct (item (rcfg_strategy rcfg) "strategy") as [strategy|]; [|discriminate].
    destruct (item (rcfg_providers rcfg) "providers") as [names|]; [|discriminate].
    destruct (String.eqb name "default") eqn:Hname.
    + apply String.eqb_eq in Hname. subst name.
      apply IH; [|exact Hr]. now intros r [= <-].
    + apply String.eqb_neq in Hname.
      apply IH; [exact Hd|]. now rewrite lookup_insert_ne.
Qed.

Lemma embedding_load_routes_default items : forall routes d rs d',
  (forall r, d = Some r -> EmbeddingRouter.route_name r = "default") ->
  routes !! "default" = None ->
  EmbeddingRouter.load_routes items routes d = Ok (rs, d') ->
  (forall r, d' = Some r -> EmbeddingRouter.route_name r = "default")
  /\ rs !! "default" = None.
Proof.
  induction items as [|[name rcfg] rest IH]; intros routes d rs d' Hd Hr; simpl.
  - intros [= <- <-]. now split.
  - destruct (item (rcfg_strategy rcfg) "strategy") as [strategy|]; [|discriminate].
    destruct (item (rcfg_providers rcfg) "providers") as [names|]; [|discriminate].
    destruct (String.eqb name "default") eqn:Hname.
    + apply String.eqb_eq in Hname. subst name.
      apply IH; [|exact Hr]. now intros r [= <-].
    + apply String.eqb_neq in Hname.
      apply IH; [exact Hd|]. now rewrite lookup_insert_ne.
Qed.

Lemma loaded_default_route (data : document) :
  (forall r, LLMRouter.from_yaml_file data = Ok r ->
     LLMRouter.route_name (LLMRouter._resolve_route r "default") = "default")
  /\ (forall r, EmbeddingRouter.from_yaml_file data = Ok r ->
        EmbeddingRouter.route_name (EmbeddingRouter.resolve_route r "default")
        = "default").
Proof.
  split; intros r.
  - unfold LLMRouter.from_yaml_file.
    destruct (LLMRouter.load_providers _ _) as [ps|]; [|discriminate].
    destruct (LLMRouter.load_routes _ _ _) as [[rs [d|]]|] eqn:Hl;
      try discriminate.
    intros [= <-].
    destruct (llm_load_routes_default _ _ _ _ _
                (fun r (H : None = Some r) => ltac:(discriminate))
                (lookup_empty _) Hl) as [Hd Hr].
    unfold LLMRouter._resolve_route. simpl. rewrite Hr. now apply Hd.
  - unfold EmbeddingRouter.from_yaml_file.
    destruct (EmbeddingRouter.load_providers _ _) as [ps|]; [|discriminate].
    destruct (EmbeddingRouter.load_routes _ _ _) as [[rs [d|]]|] eqn:Hl;
      try discriminate.
    intros [= <-].
    destruct (embedding_load_routes_default _ _ _ _ _
                (fun r (H : None = Some r) => ltac:(discriminate))
                (lookup_empty _) Hl) as [Hd Hr].
    unfold EmbeddingRouter.resolve_route. simpl. rewrite Hr. now apply Hd.
Qed.

(** C9.  Resolving a use case is a lookup that cannot fail: the route
    stored under exactly that use case if there is one, the default
    route otherwise.  It reads the router and nothing else. *)
Theorem resolve_route_exact_or_default
    (er : EmbeddingRouter.EmbeddingRouter) (lr : LLMRouter.LLMRouter)
    (use_case : string) :
  (forall route,
      EmbeddingRouter._routes er !! use_case = Some route ->
      EmbeddingRouter.resolve_route er use_case = route)
  /\ (EmbeddingRouter._routes er !! use_case = None ->
      EmbeddingRouter.resolve_route er use_case
      = EmbeddingRouter._default_route er)
  /\ (forall route,
        LLMRouter._routes lr !! use_case = Some route ->
        LLMRouter._resolve_route lr use_case = route)
  /\ (LLMRouter._routes lr !! use_case = None ->
      LLMRouter._resolve_route lr use_case = LLMRouter._default_route lr).
Proof.
  unfold EmbeddingRouter.resolve_route, LLMRouter._resolve_route.
  repeat split.
  - now intros route ->.
  - now intros ->.
  - now intros route ->.
  - now intros ->.
Qed.

End ConfigFacts.

(** ** The properties on concrete configurations *)

Module Examples.
Import PyStr Py Yaml Scenario.

(** C1.  On a weighted route with weights, [generate] and [embed]
    raise [TypeError] at their first statement, the call of [get_logger]
    with four positional arguments: the route is not resolved, no random
    number is drawn, no provider is asked and the cache is not read,
    whether the providers are reachable or not. *)
Theorem weighted_route_raises_type_error :
  let llm := Scenario2.llm_router_of Scenario2.weighted_yaml in
  let route := LLMRouter._resolve_route llm "vendor.summary" in
  let eroute := EmbeddingRouter.resolve_route embedding_router "vendor.embedding" in
  LLMRouter.strategy route = "weighted"
  /\ LLMRouter.providers route = ["p1"; "p2"]
  /\ LLMRouter.weights route = Some [1; 1]
  /\ LLMRouter.generate (p1_fails (Err ConnectError)) llm prompt
       "vendor.summary" w0 = (Err TypeError, w0)
  /\ LLMRouter.generate (p1_fails (Ok (completion "pong"))) llm prompt
       "vendor.summary" w0 = (Err TypeError, w0)
  /\ EmbeddingRouter.strategy eroute = "weighted"
  /\ EmbeddingRouter.providers eroute = ["a"; "b"]
  /\ EmbeddingRouter.weights eroute = Some [1; 1]
  /\ EmbeddingClient.embed a_down client [text_plain] "vendor.embedding" w0
     = (Err TypeError, w0)
  /\ EmbeddingClient.embed all_up client [text_plain] "vendor.embedding" w0
     = (Err TypeError, w0).
Proof. vm_compute. repeat split. Qed.





(** C10.  On ["vendor.summary"], weighted without weights, over
    [[p1, p2]] with [p1] refusing connections and [p2] answering,
    [generate] raises [TypeError] at its call of [get_logger] and asks
    no provider; the fallback loop itself, entered with these
    candidates, raises [TypeError] too, without a request. *)
Theorem generate_weighted_without_weights_raises :
  let E := p1_fails (Err ConnectError) in
  let route := LLMRouter._resolve_route llm_router "vendor.summary" in
  let out := LLMRouter.generate E llm_router prompt "vendor.summary" w0 in
  LLMRouter.strategy route = "weighted"
  /\ LLMRouter.weights route = None
  /\ LLMRouter.providers route = ["p1"; "p2"]
  /\ LLMRouter.attempt_outcome E p2 prompt [] = Ok (JStr (of_string "pong"))
  /\ out = (Err TypeError, w0)
  /\ attempts_against "p1" (trace (snd out)) = 0
  /\ attempts_against "p2" (trace (snd out)) = 0
  /\ LLMRouter.fallback_loop E [p1; p2] prompt None w0 = (Err TypeError, w0).
Proof. vm_compute. repeat split. Qed.



(** C5.  With the vector of ["a b c"] already cached under the primary
    provider's key, [embed] and [_embed_single] raise [TypeError] at
    their call of [get_logger]: the cache is not read and the cached
    vector is not returned.  On a cold cache, with [a] unreachable and
    [b] answering, nothing is stored. *)
Theorem embed_cache_hit_raises :
  let hit := EmbeddingClient.embed all_up client [text_plain] "default" w_cached in
  let cold := EmbeddingClient.embed a_down client [text_plain] "default" w0 in
  key_a = EmbeddingClient.cache_key_of all_up ea text_plain
  /\ EmbeddingClient.fingerprint_call all_up text_plain (of_string "embed-a")
     = Ok (EmbeddingClient._fingerprint all_up text_plain (of_string "embed-a"))
  /\ EmbeddingClient.cached_vector all_up (redis w_cached !! key_a)
     = Ok (Some vec3')
  /\ hit = (Err TypeError, w_cached)
  /\ EmbeddingClient._embed_single all_up client text_plain [ea; eb]
       "primary-fallback" w_cached
     = (Err TypeError, w_cached)
  /\ cold = (Err TypeError, w0)
  /\ redis (snd cold) !! key_a = None.
Proof. vm_compute. repeat split. Qed.

(** C6.  On the route ["wide"], whose only provider [c] is configured
    for 768 dimensions and answers with 512 numbers, [embed] raises
    [TypeError] at its call of [get_logger]: [c] is not asked and no
    vector is checked; likewise on ["mixed"], over [[a, c]]. *)
Theorem embed_dimension_mismatch_raises :
  let route := EmbeddingRouter.resolve_route embedding_router "wide" in
  let alone := EmbeddingClient.embed all_up client [text_plain] "wide" w0 in
  let mixed := EmbeddingClient.embed a_down client [text_plain] "mixed" w0 in
  EmbeddingRouter.providers route = ["c"]
  /\ EmbeddingRouter.get_provider embedding_router "c" = Ok ec
  /\ EmbeddingRouter.embedding_dim ec = 768
  /\ match EmbeddingClient.normalize_response ec vec512 with
     | Ok vector => len vector
     | Err e => Err e
     end = Ok 512
  /\ alone = (Err TypeError, w0)
  /\ attempts_against "c" (trace (snd alone)) = 0
  /\ mixed = (Err TypeError, w0).
Proof. vm_compute. repeat split. Qed.

(** C8: the two texts of the example. *)
Lemma fingerprint_whitespace_stable_witness :
  normalize text_spaced = normalize text_plain
  /\ EmbeddingClient._fingerprint all_up text_spaced (of_string "embed-a")
     = EmbeddingClient._fingerprint all_up text_plain (of_string "embed-a").
Proof.
  destruct (EmbeddingClientFacts.fingerprint_whitespace_stable all_up
              text_spaced text_plain (of_string "embed-a"))
    as (Hn & Hf & _).
  - apply PyStrFacts.ws_equiv_iff_normalize. vm_compute. reflexivity.
  - split; [exact Hn | exact Hf].
Defined.

(** C9: an unknown use case, and a known one, on both routers. *)
Lemma resolve_route_exact_or_default_witness :
  EmbeddingRouter.resolve_route embedding_router "nonexistent.case"
  = EmbeddingRouter._default_route embedding_router
  /\ LLMRouter._resolve_route llm_router "nonexistent.case"
     = LLMRouter._default_route llm_router
  /\ EmbeddingRouter.route_name
       (EmbeddingRouter.resolve_route embedding_router "vendor.embedding")
     = "vendor.embedding"
  /\ LLMRouter.route_name
       (LLMRouter._resolve_route llm_router "authoring.generate")
     = "authoring.generate".
Proof.
  destruct (ConfigFacts.resolve_route_exact_or_default embedding_router
              llm_router "nonexistent.case") as (_ & He & _ & Hl).
  split; [apply He; vm_compute; reflexivity|].
  split; [apply Hl; vm_compute; reflexivity|].
  split.
  - destruct (ConfigFacts.resolve_route_exact_or_default embedding_router
                llm_router "vendor.embedding") as (He' & _).
    rewrite (He' _ eq_refl). reflexivity.
  - destruct (ConfigFacts.resolve_route_exact_or_default embedding_router
                llm_router "authoring.generate") as (_ & _ & Hl' & _).
    rewrite (Hl' _ eq_refl). reflexivity.
Defined.


End Examples.

(** ** More on text normalization and the fingerprint *)

Module FingerprintFacts.
Import PyStr Py EmbeddingClient More.

Lemma flush_nonempty x w : flush (x :: w) = [rev (x :: w)].
Proof. reflexivity. Qed.

(** Scanning a stretch without whitespace only grows the current word. *)
Lemma split_from_word x : forall w s,
  Forall (fun c => isspace c = false) x ->
  split_from w (x ++ s) = split_from (rev x ++ w) s.
Proof.
  induction x as [|c x IH]; intros w s Hx; [reflexivity|].
  inversion Hx as [|? ? Hc Hx']; subst. simpl. rewrite Hc.
  rewrite IH by assumption. now rewrite <- app_assoc.
Qed.

Lemma split_join_space (words : list pystr) :
  Forall is_word words -> split (join [SPACE] words) = words.
Proof.
  induction words as [|w1 ws IH]; intros Hws; [reflexivity|].
  inversion Hws as [|? ? [Hne Hw1] Hws']; subst.
  assert (Hflush : flush (rev w1) = [w1]).
  { destruct (rev w1) as [|c r] eqn:Hr.
    - apply (f_equal (@rev N)) in Hr. rewrite rev_involutive in Hr.
      now subst.
    - rewrite flush_nonempty, <- Hr. now rewrite rev_involutive. }
  destruct ws as [|w2 ws'].
  - simpl join. unfold split.
    pose proof (split_from_word w1 [] [] Hw1) as Hsplit.
    rewrite !app_nil_r in Hsplit. now rewrite Hsplit.
  - change (join [SPACE] (w1 :: w2 :: ws'))
      with (w1 ++ SPACE :: join [SPACE] (w2 :: ws')).
    unfold split. rewrite split_from_word by assumption.
    rewrite app_nil_r. rewrite PyStrFacts.split_from_space by reflexivity.
    rewrite Hflush. simpl. f_equal. now apply IH.
Qed.

(** X2.  [split] undoes [join]: words that are non-empty and free of
    whitespace, joined by single spaces, split back into the same
    words. *)
Theorem split_join_words (words : list pystr) :
  Forall is_word words -> split (join [SPACE] words) = words.
Proof. apply split_join_space. Qed.

(** X1.  Normalizing twice is normalizing once, and the texts that
    normalization leaves alone are exactly the normal forms: words free
    of whitespace separated by single spaces. *)
Theorem normalize_idempotent_fixpoints (t : pystr) :
  normalize (normalize t) = normalize t
  /\ (normalize t = t <-> normal_form t).
Proof.
  split.
  - apply PyStrFacts.ws_equiv_iff_normalize, ws_sym,
      PyStrFacts.ws_equiv_normalize.
  - split.
    + intros <-. apply PyStrFacts.normalize_normal_form.
    + intros (words & Hwords & ->). unfold normalize.
      now rewrite split_join_space.
Qed.

Lemma filter_join_space words :
  List.filter nonspace (join [SPACE] words)
  = concat (map (List.filter nonspace) words).
Proof.
  induction words as [|w1 ws IH]; [reflexivity|].
  destruct ws as [|w2 ws'].
  - simpl. now rewrite app_nil_r.
  - change (join [SPACE] (w1 :: w2 :: ws'))
      with (w1 ++ SPACE :: join [SPACE] (w2 :: ws')).
    rewrite List.filter_app. cbn [List.filter].
    change (nonspace SPACE) with false. cbv iota.
    rewrite IH. reflexivity.
Qed.

Lemma filter_split_from s : forall w,
  concat (map (List.filter nonspace) (split_from w s))
  = List.filter nonspace (rev w) ++ List.filter nonspace s.
Proof.
  induction s as [|c s IH]; intros w.
  - destruct w; simpl; now rewrite ?app_nil_r.
  - simpl split_from. destruct (isspace c) eqn:Hc.
    + rewrite map_app, concat_app, (IH []). cbn [List.filter].
      rewrite Hc. simpl negb. cbv iota.
      destruct w; simpl; now rewrite ?app_nil_r.
    + rewrite (IH (c :: w)). simpl rev. rewrite List.filter_app.
      cbn [List.filter]. rewrite Hc. simpl. now rewrite <- app_assoc.
Qed.

Lemma split_all_space s :
  Forall (fun c => isspace c = true) s -> split s = [].
Proof.
  unfold split. induction 1 as [|c s Hc _ IH]; [reflexivity|].
  simpl. now rewrite Hc.
Qed.

(** X3.  Normalization keeps every character that is not whitespace, in
    order, and drops or replaces nothing else; the result is empty
    exactly for texts made of whitespace only. *)
Theorem normalize_keeps_characters (t : pystr) :
  List.filter nonspace (normalize t) = List.filter nonspace t
  /\ (normalize t = [] <-> Forall (fun c => isspace c = true) t).
Proof.
  assert (Hkeep : List.filter nonspace (normalize t) = List.filter nonspace t).
  { unfold normalize, split. now rewrite filter_join_space, filter_split_from. }
  split; [exact Hkeep|]. split.
  - intros Hnil. rewrite Hnil in Hkeep. simpl in Hkeep.
    apply List.Forall_forall. intros c Hin.
    destruct (isspace c) eqn:Hc; [reflexivity|].
    assert (Hc' : In c (List.filter nonspace t)).
    { apply List.filter_In. split; [exact Hin | now rewrite Hc]. }
    rewrite <- Hkeep in Hc'. destruct Hc'.
  - intros Hall. unfold normalize. now rewrite split_all_space.
Qed.

(** A word in progress keeps what it already holds in front of whatever
    the scan adds. *)
Lemma split_from_prefix s : forall w pre,
  w <> [] ->
  exists first rest,
    split_from w s = first :: rest
    /\ split_from (w ++ pre) s = (rev pre ++ first) :: rest.
Proof.
  induction s as [|c s IH]; intros w pre Hw.
  - destruct w as [|x w]; [congruence|].
    exists (rev (x :: w)), []. split; [reflexivity|].
    simpl. now rewrite rev_app_distr, <- app_assoc.
  - simpl. destruct (isspace c).
    + destruct w as [|x w]; [congruence|].
      exists (rev (x :: w)), (split_from [] s). split; [reflexivity|].
      simpl. now rewrite rev_app_distr, <- app_assoc.
    + apply (IH (c :: w) pre). discriminate.
Qed.

Lemma normalize_after_word x y :
  Forall (fun c => isspace c = false) x -> x <> [] ->
  match y with [] => True | c :: _ => isspace c = false end ->
  normalize (x ++ y) = x ++ normalize y.
Proof.
  intros Hx Hne Hy. unfold normalize, split.
  rewrite split_from_word by assumption. rewrite app_nil_r.
  assert (Hrev : rev x <> []).
  { intros Hr. apply (f_equal (@rev N)) in Hr.
    rewrite rev_involutive in Hr. now subst. }
  destruct y as [|c y].
  - simpl. destruct (rev x) as [|a r] eqn:Hr; [congruence|].
    rewrite flush_nonempty, <- Hr, rev_involutive. simpl.
    now rewrite app_nil_r.
  - simpl. rewrite Hy.
    destruct (split_from_prefix y [c] (rev x) ltac:(discriminate))
      as (first & rest & H1 & H2).
    change (c :: rev x) with ([c] ++ rev x). rewrite H2, H1.
    rewrite rev_involutive.
    destruct rest; simpl; now rewrite <- ?app_assoc.
Qed.

(** X4.  The fingerprint does not keep the model apart from the text:
    moving a whitespace-free piece [x] and the separator ["::"] from the
    end of the model to the front of the text gives the same
    fingerprint, hence the same cache key. *)
Theorem fingerprint_separator_ambiguous (E : env) (m x y : pystr) :
  Forall (fun c => isspace c = false) x ->
  match y with [] => True | c :: _ => isspace c = false end ->
  _fingerprint E y (m ++ of_string "::" ++ x)
  = _fingerprint E (x ++ of_string "::" ++ y) m.
Proof.
  intros Hx Hy. unfold _fingerprint. f_equal.
  replace (x ++ of_string "::" ++ y) with ((x ++ of_string "::") ++ y)
    by now rewrite <- app_assoc.
  rewrite normalize_after_word.
  - now rewrite <- !app_assoc.
  - apply Forall_app. split; [exact Hx | now repeat constructor].
  - destruct x; discriminate.
  - exact Hy.
Qed.

End FingerprintFacts.

(** ** More on the retry loop of [LLMRouter._call_provider] *)

Module RetryFacts.
Import PyStr Py Yaml LLMRouter.

Section Facts.
Context (E : env).

Lemma retry_loop_succeeds_at p prompt v : forall (j : nat) (first : Z) (w : world),
  first + Z.of_nat j <= retries p ->
  (forall i, (i < j)%nat ->
     is_ok (attempt_outcome E p prompt
              (trace w ++ repeat (EvPost (request_for p prompt)) i)) = false) ->
  attempt_outcome E p prompt
    (trace w ++ repeat (EvPost (request_for p prompt)) j) = Ok v ->
  retry_loop E p prompt (seqZ first (retries p - first + 1)) w
  = (Ok v, after w (EvPost (request_for p prompt)) (S j)).
Proof.
  induction j as [|j IH]; intros first w Hle Hfail Hok.
  - rewrite seqZ_cons by lia. simpl retry_loop. unfold try_except.
    rewrite LLMRouterFacts.attempt_once_run.
    simpl in Hok. rewrite app_nil_r in Hok. rewrite Hok.
    now rewrite <- LLMRouterFacts.after_S, LLMRouterFacts.after_0.
  - rewrite seqZ_cons by lia. simpl retry_loop. unfold try_except.
    rewrite LLMRouterFacts.attempt_once_run.
    pose proof (Hfail 0%nat ltac:(lia)) as H0.
    simpl in H0. rewrite app_nil_r in H0.
    destruct (attempt_outcome E p prompt (trace w)) as [v0|e]; [discriminate|].
    replace (first =? retries p) with false by (symmetry; apply Z.eqb_neq; lia).
    replace (Z.pred (retries p - first + 1))
      with (retries p - Z.succ first + 1) by lia.
    rewrite (IH (Z.succ first) (emit (EvPost (request_for p prompt)) w)).
    + now rewrite LLMRouterFacts.after_S.
    + lia.
    + intros i Hi. specialize (Hfail (S i) ltac:(lia)).
      unfold emit. simpl. now rewrite <- app_assoc.
    + unfold emit. simpl. now rewrite <- app_assoc.
Qed.


End Facts.
End RetryFacts.

(** ** The calls of [get_logger] *)

Module LoggingFacts.
Import PyStr Py.

(** X6.  Every function of the two connectors and of the Redis client
    that obtains a logger raises [TypeError] there, for every input and
    in every state, and leaves the world as it found it: nothing is
    sent, drawn, read or written, and no value is returned. *)
Theorem entry_points_raise_type_error (E : env) (w : world) :
  (forall self prompt use_case,
      LLMRouter.generate E self prompt use_case w = (Err TypeError, w))
  /\ (forall provider prompt,
        LLMRouter._call_provider E provider prompt w = (Err TypeError, w))
  /\ (forall self texts use_case,
        EmbeddingClient.embed E self texts use_case w = (Err TypeError, w))
  /\ (forall self text candidates strategy,
        EmbeddingClient._embed_single E self text candidates strategy w
        = (Err TypeError, w))
  /\ (forall provider text,
        EmbeddingClient._call_provider E provider text w = (Err TypeError, w))
  /\ (forall key, RedisClient_get E key w = (Err TypeError, w))
  /\ (forall key value ttl,
        RedisClient_set E key value ttl w = (Err TypeError, w)).
Proof. repeat split. Qed.

End LoggingFacts.


(** ** More on the loaders *)

Module LoaderFacts.
Import PyStr Py Yaml More.

Lemma llm_load_providers_lookup items : forall acc m n,
  LLMRouter.load_providers items acc = Ok m ->
  (~ In n (map fst items) -> m !! n = acc !! n)
  /\ (forall cfg, NoDup (map fst items) -> In (n, cfg) items ->
        exists p, llm_provider_of n cfg = Some p /\ m !! n = Some p).
Proof.
  induction items as [|[k c] rest IH]; intros acc m n; simpl.
  - intros [= <-]. split; [reflexivity | intros cfg _ []].
  - destruct (cfg_provider_type c) as [ptype|] eqn:Ht; simpl; [|discriminate].
    destruct (cfg_endpoint c) as [endpoint|] eqn:He; simpl; [|discriminate].
    destruct (cfg_model c) as [model|] eqn:Hm; simpl; [|discriminate].
    intros Hload. destruct (IH _ m n Hload) as [Hout Hin]. split.
    + intros Hn. rewrite Hout by tauto. apply lookup_insert_ne. tauto.
    + intros cfg Hnd [[= -> ->]|Hrest].
      * apply NoDup_cons in Hnd as [Hfresh _].
        rewrite list_elem_of_In in Hfresh.
        rewrite Hout by exact Hfresh. rewrite lookup_insert_eq.
        unfold llm_provider_of. rewrite Ht, He, Hm. eauto.
      * apply NoDup_cons in Hnd as [_ Hnd]. now apply Hin.
Qed.

Lemma embedding_load_providers_lookup items : forall acc m n,
  EmbeddingRouter.load_providers items acc = Ok m ->
  (~ In n (map fst items) -> m !! n = acc !! n)
  /\ (forall cfg, NoDup (map fst items) -> In (n, cfg) items ->
        exists p, embedding_provider_of n cfg = Some p /\ m !! n = Some p).
Proof.
  induction items as [|[k c] rest IH]; intros acc m n; simpl.
  - intros [= <-]. split; [reflexivity | intros cfg _ []].
  - destruct (cfg_provider_type c) as [ptype|] eqn:Ht; simpl; [|discriminate].
    destruct (cfg_endpoint c) as [endpoint|] eqn:He; simpl; [|discriminate].
    destruct (cfg_model c) as [model|] eqn:Hm; simpl; [|discriminate].
    destruct (cfg_embedding_dim c) as [dim|] eqn:Hd; simpl; [|discriminate].
    intros Hload. destruct (IH _ m n Hload) as [Hout Hin]. split.
    + intros Hn. rewrite Hout by tauto. apply lookup_insert_ne. tauto.
    + intros cfg Hnd [[= -> ->]|Hrest].
      * apply NoDup_cons in Hnd as [Hfresh _].
        rewrite list_elem_of_In in Hfresh.
        rewrite Hout by exact Hfresh. rewrite lookup_insert_eq.
        unfold embedding_provider_of. rewrite Ht, He, Hm, Hd. eauto.
      * apply NoDup_cons in Hnd as [_ Hnd]. now apply Hin.
Qed.

(** X16.  After a successful load of a document whose provider names
    are distinct, looking a provider up by name gives the provider its
    entry describes, with [api_key], [timeout_ms] and [retries]
    defaulting to [""], 10000 (5000 for embeddings) and 3, and a name
    without an entry raises [KeyError]: on both routers. *)
Theorem loaded_providers_lookup (data : document) :
  let ps := get (doc_providers data) [] in
  NoDup (map fst ps) ->
  (forall r, LLMRouter.from_yaml_file data = Ok r ->
     (forall n cfg, In (n, cfg) ps ->
        exists p, llm_provider_of n cfg = Some p
                  /\ LLMRouter.provider_named r n = Ok p)
     /\ (forall n, ~ In n (map fst ps) ->
           LLMRouter.provider_named r n = Err (KeyError n)))
  /\ (forall r, EmbeddingRouter.from_yaml_file data = Ok r ->
        (forall n cfg, In (n, cfg) ps ->
           exists p, embedding_provider_of n cfg = Some p
                     /\ EmbeddingRouter.get_provider r n = Ok p)
        /\ (forall n, ~ In n (map fst ps) ->
              EmbeddingRouter.get_provider r n = Err (KeyError n))).
Proof.
  intros ps Hnd. split; intros r.
  - unfold LLMRouter.from_yaml_file. fold ps.
    destruct (LLMRouter.load_providers ps ∅) as [m|] eqn:Hload; [|discriminate].
    destruct (LLMRouter.load_routes _ _ _) as [[rs [d|]]|]; try discriminate.
    intros [= <-]. unfold LLMRouter.provider_named. simpl. split.
    + intros n cfg Hin.
      destruct (proj2 (llm_load_providers_lookup ps ∅ m n Hload) cfg Hnd Hin)
        as (p & Hp & Hm).
      exists p. now rewrite Hm.
    + intros n Hn.
      rewrite (proj1 (llm_load_providers_lookup ps ∅ m n Hload) Hn).
      now rewrite lookup_empty.
  - unfold EmbeddingRouter.from_yaml_file. fold ps.
    destruct (EmbeddingRouter.load_providers ps ∅) as [m|] eqn:Hload;
      [|discriminate].
    destruct (EmbeddingRouter.load_routes _ _ _) as [[rs [d|]]|];
      try discriminate.
    intros [= <-]. unfold EmbeddingRouter.get_provider. simpl. split.
    + intros n cfg Hin.
      destruct (proj2 (embedding_load_providers_lookup ps ∅ m n Hload)
                  cfg Hnd Hin) as (p & Hp & Hm).
      exists p. now rewrite Hm.
    + intros n Hn.
      rewrite (proj1 (embedding_load_providers_lookup ps ∅ m n Hload) Hn).
      now rewrite lookup_empty.
Qed.

Lemma llm_load_routes_names items : forall routes d rs d',
  (forall k rt, routes !! k = Some rt -> LLMRouter.route_name rt = k) ->
  LLMRouter.load_routes items routes d = Ok (rs, d') ->
  (forall k rt, rs !! k = Some rt -> LLMRouter.route_name rt = k)
  /\ (forall k, k <> "default" -> In k (map fst items) -> is_Some (rs !! k))
  /\ (forall k, ~ In k (map fst items) -> rs !! k = routes !! k).
Proof.
  induction items as [|[name rcfg] rest IH]; intros routes d rs d' Hinv; simpl.
  - intros [= <- <-]. split; [exact Hinv|]. split; [intros k _ []|reflexivity].
  - destruct (item (rcfg_strategy rcfg) "strategy") as [strategy|]; [|discriminate].
    destruct (item (rcfg_providers rcfg) "providers") as [names|]; [|discriminate].
    destruct (String.eqb name "default") eqn:Hname.
    + apply String.eqb_eq in Hname. subst name. intros Hload.
      destruct (IH _ _ _ _ Hinv Hload) as (H1 & H2 & H3).
      split; [exact H1|]. split.
      * intros k Hk [Heq|Hin]; [congruence | now apply H2].
      * intros k Hk. apply H3. tauto.
    + apply String.eqb_neq in Hname. intros Hload.
      match type of Hload with
      | LLMRouter.load_routes rest (<[name := ?rt]> routes) d = _ =>
          assert (Hinv' : forall k rt', <[name := rt]> routes !! k = Some rt' ->
                                        LLMRouter.route_name rt' = k)
      end.
      { intros k rt'. rewrite lookup_insert. case_decide.
        - subst. now intros [= <-].
        - apply Hinv. }
      destruct (IH _ _ _ _ Hinv' Hload) as (H1 & H2 & H3).
      split; [exact H1|]. split.
      * intros k Hk [Heq|Hin]; [|now apply H2].
        simpl in Heq. subst k.
        destruct (in_dec string_dec name (map fst rest)) as [Hin|Hout];
          [now apply H2|].
        rewrite (H3 name Hout), lookup_insert_eq. eauto.
      * intros k Hk. rewrite H3 by tauto.
        apply lookup_insert_ne. simpl in Hk. tauto.
Qed.

Lemma embedding_load_routes_names items : forall routes d rs d',
  (forall k rt, routes !! k = Some rt -> EmbeddingRouter.route_name rt = k) ->
  EmbeddingRouter.load_routes items routes d = Ok (rs, d') ->
  (forall k rt, rs !! k = Some rt -> EmbeddingRouter.route_name rt = k)
  /\ (forall k, k <> "default" -> In k (map fst items) -> is_Some (rs !! k))
  /\ (forall k, ~ In k (map fst items) -> rs !! k = routes !! k).
Proof.
  induction items as [|[name rcfg] rest IH]; intros routes d rs d' Hinv; simpl.
  - intros [= <- <-]. split; [exact Hinv|]. split; [intros k _ []|reflexivity].
  - destruct (item (rcfg_strategy rcfg) "strategy") as [strategy|]; [|discriminate].
    destruct (item (rcfg_providers rcfg) "providers") as [names|]; [|discriminate].
    destruct (String.eqb name "default") eqn:Hname.
    + apply String.eqb_eq in Hname. subst name. intros Hload.
      destruct (IH _ _ _ _ Hinv Hload) as (H1 & H2 & H3).
      split; [exact H1|]. split.
      * intros k Hk [Heq|Hin]; [congruence | now apply H2].
      * intros k Hk. apply H3. tauto.
    + apply String.eqb_neq in Hname. intros Hload.
      match type of Hload with
      | EmbeddingRouter.load_routes rest (<[name := ?rt]> routes) d = _ =>
          assert (Hinv' : forall k rt', <[name := rt]> routes !! k = Some rt' ->
                                        EmbeddingRouter.route_name rt' = k)
      end.
      { intros k rt'. rewrite lookup_insert. case_decide.
        - subst. now intros [= <-].
        - apply Hinv. }
      destruct (IH _ _ _ _ Hinv' Hload) as (H1 & H2 & H3).
      split; [exact H1|]. split.
      * intros k Hk [Heq|Hin]; [|now apply H2].
        simpl in Heq. subst k.
        destruct (in_dec string_dec name (map fst rest)) as [Hin|Hout];
          [now apply H2|].
        rewrite (H3 name Hout), lookup_insert_eq. eauto.
      * intros k Hk. rewrite H3 by tauto.
        apply lookup_insert_ne. simpl in Hk. tauto.
Qed.

(** X17.  On a loaded router, the route a use case resolves to is the
    entry of that name when the document has one and the use case is
    not ["default"], and the entry named [default] in every other case:
    in particular asking for ["default"] itself gives the default
    route. *)
Theorem loaded_route_resolution (data : document) (use_case : string) :
  let rs := get (doc_routes data) [] in
  (forall r, LLMRouter.from_yaml_file data = Ok r ->
     LLMRouter.route_name (LLMRouter._resolve_route r use_case)
     = if decide (use_case <> "default" /\ use_case ∈ map fst rs)
       then use_case else "default")
  /\ (forall r, EmbeddingRouter.from_yaml_file data = Ok r ->
        EmbeddingRouter.route_name (EmbeddingRouter.resolve_route r use_case)
        = if decide (use_case <> "default" /\ use_case ∈ map fst rs)
          then use_case else "default").
Proof.
  intros rs. split; intros r.
  - unfold LLMRouter.from_yaml_file. fold rs.
    destruct (LLMRouter.load_providers _ _) as [m|]; [|discriminate].
    destruct (LLMRouter.load_routes rs ∅ None) as [[routes [d|]]|] eqn:Hload;
      try discriminate.
    intros [= <-]. unfold LLMRouter._resolve_route. simpl.
    destruct (llm_load_routes_names rs ∅ None routes (Some d)
                ltac:(intros k rt; rewrite lookup_empty; discriminate) Hload)
      as (Hnames & Hdom & Hout).
    destruct (ConfigFacts.llm_load_routes_default rs ∅ None routes (Some d)
                ltac:(discriminate) (lookup_empty _) Hload) as [Hd Hnodef].
    case_decide as Hcase.
    + destruct Hcase as [Hne Hin]. apply list_elem_of_In in Hin.
      destruct (Hdom use_case Hne Hin) as [rt Hrt]. rewrite Hrt.
      now apply Hnames.
    + destruct (routes !! use_case) as [rt|] eqn:Hrt; [|now apply Hd].
      exfalso. apply Hcase. split.
      * intros ->. congruence.
      * destruct (in_dec string_dec use_case (map fst rs)) as [Hin|Hnot];
          [now apply list_elem_of_In|].
        rewrite (Hout use_case Hnot), lookup_empty in Hrt. discriminate.
  - unfold EmbeddingRouter.from_yaml_file. fold rs.
    destruct (EmbeddingRouter.load_providers _ _) as [m|]; [|discriminate].
    destruct (EmbeddingRouter.load_routes rs ∅ None) as [[routes [d|]]|]
      eqn:Hload; try discriminate.
    intros [= <-]. unfold EmbeddingRouter.resolve_route. simpl.
    destruct (embedding_load_routes_names rs ∅ None routes (Some d)
                ltac:(intros k rt; rewrite lookup_empty; discriminate) Hload)
      as (Hnames & Hdom & Hout).
    destruct (ConfigFacts.embedding_load_routes_default rs ∅ None routes
                (Some d) ltac:(discriminate) (lookup_empty _) Hload)
      as [Hd Hnodef].
    case_decide as Hcase.
    + destruct Hcase as [Hne Hin]. apply list_elem_of_In in Hin.
      destruct (Hdom use_case Hne Hin) as [rt Hrt]. rewrite Hrt.
      now apply Hnames.
    + destruct (routes !! use_case) as [rt|] eqn:Hrt; [|now apply Hd].
      exfalso. apply Hcase. split.
      * intros ->. congruence.
      * destruct (in_dec string_dec use_case (map fst rs)) as [Hin|Hnot];
          [now apply list_elem_of_In|].
        rewrite (Hout use_case Hnot), lookup_empty in Hrt. discriminate.
Qed.

End LoaderFacts.

(** ** The error registry *)

Module ErrorFacts.
Import PyStr Py ErrorCodes.

Lemma assoc_Forall {A} (P : string -> A -> Prop) key items v :
  Forall (fun entry => P (fst entry) (snd entry)) items ->
  assoc key items = Some v -> P key v.
Proof.
  induction 1 as [|[k x] rest Hx _ IH]; simpl; [discriminate|].
  destruct (String.eqb k key) eqn:Hk.
  - apply String.eqb_eq in Hk. subst. now intros [= <-].
  - exact IH.
Qed.

Lemma registry_sound :
  Forall (fun entry => code (snd entry) = fst entry
                       /\ http_status (snd entry) <> 0)
         _KA_REGISTRY.
Proof. repeat constructor; discriminate. Qed.

(** X18.  Every error built by [SenseiError.__init__] carries the code
    it was given, registered or not, and a non-zero HTTP status: an
    explicit status of 0 is replaced by the registered one (500 for an
    unknown code), whereas an explicit [retriable] always stands. *)
Theorem sensei_error_code_and_status
    (cls : error_class) (c : string) (message : option pystr)
    (status : option Z) (flag : option bool) :
  let err := new_error cls c message status flag in
  code (get_error_info c) = c
  /\ err_code err = c
  /\ err_http_status err <> 0
  /\ (status = Some 0 -> err_http_status err = http_status (get_error_info c))
  /\ (forall b, flag = Some b -> err_retriable err = b).
Proof.
  assert (Hinfo : code (get_error_info c) = c
                  /\ http_status (get_error_info c) <> 0).
  { unfold get_error_info.
    destruct (assoc c _KA_REGISTRY) as [i|] eqn:Hi; [|now split].
    exact (assoc_Forall (fun k i => code i = k /\ http_status i <> 0)
             c _KA_REGISTRY i registry_sound Hi). }
  destruct Hinfo as [Hcode Hstatus]. simpl.
  split; [exact Hcode|]. split; [exact Hcode|]. split; [|split].
  - destruct status as [s|]; [|exact Hstatus].
    destruct (s =? 0) eqn:Hs; [exact Hstatus|]. now apply Z.eqb_neq.
  - now intros ->.
  - now intros b ->.
Qed.

End ErrorFacts.

(** ** The ontology classifier, caller of [LLMRouter.generate] *)

Module OntologyFacts.
Import PyStr Py Ontology.

Section Facts.
Context {R : Runtime}.
Context (E : env) (llm_yaml : result Yaml.document)
        (str_of_exception : raised -> pystr).

Lemma score_loop_category lower categories : forall best_cat best_score,
  fst (score_loop lower categories best_cat best_score) = best_cat
  \/ In (fst (score_loop lower categories best_cat best_score))
        (map fst categories).
Proof.
  induction categories as [|[name kws] rest IH]; intros best_cat best_score;
    simpl; [now left|].
  destruct kws as [|kw kws'].
  - destruct (IH best_cat best_score); auto.
  - match goal with
    | |- context [(?m =? 0)%nat] => destruct (m =? 0)%nat
    end.
    + destruct (IH best_cat best_score); auto.
    + match goal with
      | |- context [f_gt ?x best_score] => destruct (f_gt x best_score)
      end.
      * match goal with
        | |- context [score_loop lower rest name ?x] =>
            destruct (IH name x) as [-> | Hin]; auto
        end.
      * destruct (IH best_cat best_score); auto.
Qed.

Lemma score_category_known text categories :
  fst (_score_category text categories) = general
  \/ In (fst (_score_category text categories)) (map fst categories).
Proof.
  unfold _score_category.
  pose proof (score_loop_category (str_lower text) categories general f_zero)
    as Hloop.
  destruct (score_loop (str_lower text) categories general f_zero)
    as [best_cat best_score].
  destruct (f_is_zero best_score && _); simpl in *; auto.
Qed.

(** X19.  The rule-based label only ever names ["general"] or a
    category of the configuration: a document kind from [doc_kinds], an
    area from [areas]. *)
Theorem rule_based_labels_known (config : ontology_yaml) (text : pystr) :
  let label := _rule_based_classify config text in
  (doc_kind label = general
   \/ In (doc_kind label) (map fst (Yaml.get (yaml_doc_kinds config) [])))
  /\ (area label = general
      \/ In (area label) (map fst (Yaml.get (yaml_areas config) []))).
Proof.
  unfold _rule_based_classify.
  pose proof (score_category_known text (_DOC_KINDS config)) as Hk.
  pose proof (score_category_known text (_AREAS config)) as Ha.
  destruct (_score_category text (_DOC_KINDS config)) as [dk ks].
  destruct (_score_category text (_AREAS config)) as [ar as_].
  unfold _DOC_KINDS, _AREAS, keyword_table in Hk, Ha.
  rewrite map_map in Hk, Ha. simpl in *. split; assumption.
Qed.

(** X20.  Without [ontology.yaml] every text is labelled
    general/general with score [0.0], and neither the LLM
    configuration nor the network is touched. *)
Theorem classify_without_config (text : pystr) (g : globals) :
  f_is_zero f_zero = true ->
  classify_ontology E llm_yaml str_of_exception
    (_load_ontology_config None) text g
  = (Returned {| doc_kind := general; area := general; score := f_zero |}, g).
Proof.
  intros Hzero. unfold classify_ontology, _rule_based_classify,
    _score_category. simpl. rewrite Hzero. simpl. rewrite Hzero. reflexivity.
Qed.



(** X23.  With the fallback enabled and a rule-based score below the
    threshold, a failure to load the LLM configuration is not absorbed:
    it is raised to the caller of [classify_ontology] as it is, the
    singleton stays unset, and nothing is sent. *)
Theorem classify_raises_configuration_error (config : ontology_yaml)
    (text : pystr) (g : globals) (e : exn) :
  truth (enabled (_LLM_CFG config)) = true ->
  f_ge (score (_rule_based_classify config text))
       (Yaml.get (min_rule_score (_LLM_CFG config)) f_six_tenths) = false ->
  _LLM_ROUTER g = None ->
  match llm_yaml with
  | Err e' => e' = e
  | Ok data => LLMRouter.from_yaml_file data = Err e
  end ->
  classify_ontology E llm_yaml str_of_exception config text g
  = (Raised (Builtin e), g).
Proof.
  intros Hen Hlow Hnone Hload.
  unfold classify_ontology. rewrite Hen, Hlow. simpl negb. cbv iota.
  unfold _llm_enrich_ontology. rewrite Hen. simpl negb. cbv iota.
  unfold _get_llm_router. rewrite Hnone.
  destruct llm_yaml as [data|e'].
  - now rewrite Hload.
  - now subst.
Qed.

End Facts.
End OntologyFacts.

(** ** The further properties on concrete configurations *)

Module MoreExamples.
Import PyStr Py Yaml Scenario Scenario2 More.

Lemma abc_words :
  Forall is_word [of_string "a"; of_string "b"; of_string "c"].
Proof. repeat constructor; discriminate. Qed.

Lemma normalize_idempotent_fixpoints_witness :
  normalize (normalize text_spaced) = normalize text_spaced
  /\ normalize text_plain = text_plain.
Proof.
  split.
  - apply (FingerprintFacts.normalize_idempotent_fixpoints text_spaced).
  - apply (FingerprintFacts.normalize_idempotent_fixpoints text_plain).
    exists [of_string "a"; of_string "b"; of_string "c"].
    split; [exact abc_words | reflexivity].
Defined.

Lemma split_join_words_witness :
  split text_plain = [of_string "a"; of_string "b"; of_string "c"].
Proof.
  apply (FingerprintFacts.split_join_words
           [of_string "a"; of_string "b"; of_string "c"]).
  exact abc_words.
Defined.

Lemma normalize_keeps_characters_witness :
  List.filter nonspace (normalize text_spaced) = of_string "abc"
  /\ normalize [32; 10; 9]%N = [].
Proof.
  split.
  - rewrite (proj1 (FingerprintFacts.normalize_keeps_characters text_spaced)).
    reflexivity.
  - apply (FingerprintFacts.normalize_keeps_characters [32; 10; 9]%N).
    repeat constructor.
Defined.

Lemma fingerprint_separator_ambiguous_witness :
  EmbeddingClient._fingerprint all_up (of_string "c") (of_string "a::b")
  = EmbeddingClient._fingerprint all_up (of_string "b::c") (of_string "a").
Proof.
  apply (FingerprintFacts.fingerprint_separator_ambiguous all_up
           (of_string "a") (of_string "b") (of_string "c")).
  - repeat constructor.
  - reflexivity.
Defined.


Lemma names_distinct : NoDup ["a"; "b"; "c"].
Proof. apply (bool_decide_unpack _). vm_compute. exact I. Qed.

Lemma loaded_providers_lookup_witness :
  EmbeddingRouter.get_provider embedding_router "b" = Ok eb
  /\ EmbeddingRouter.get_provider embedding_router "z" = Err (KeyError "z").
Proof.
  destruct (proj2 (LoaderFacts.loaded_providers_lookup embedding_routes_yaml
                     names_distinct) embedding_router) as [Hin Hout].
  - vm_compute. reflexivity.
  - split.
    + destruct (Hin "b" (embedding_cfg "huggingface_api" "embed-b" 3))
        as (p & Hp & Hget).
      * right. left. reflexivity.
      * rewrite Hget. f_equal. vm_compute in Hp. now injection Hp as <-.
    + apply Hout. vm_compute. intros [H|[H|[H|[]]]]; discriminate.
Defined.

Lemma loaded_route_resolution_witness :
  LLMRouter.route_name (LLMRouter._resolve_route llm_router "default")
  = "default".
Proof.
  pose proof (proj1 (LoaderFacts.loaded_route_resolution llm_routes_yaml
                       "default") llm_router) as H.
  rewrite H.
  - apply decide_False. intros [Hne _]. now apply Hne.
  - vm_compute. reflexivity.
Defined.

Lemma sensei_error_code_and_status_witness :
  ErrorCodes.err_http_status
    (ErrorCodes.new_error ErrorCodes.LLMError "KA-LLM-0007" None (Some 0)
       (Some false)) = 504
  /\ ErrorCodes.err_retriable
       (ErrorCodes.new_error ErrorCodes.LLMError "KA-LLM-0007" None (Some 0)
          (Some false)) = false.
Proof.
  destruct (ErrorFacts.sensei_error_code_and_status ErrorCodes.LLMError
              "KA-LLM-0007" None (Some 0) (Some false))
    as (_ & _ & _ & Hstatus & Hflag).
  split.
  - rewrite Hstatus; reflexivity.
  - now apply Hflag.
Defined.

Lemma classify_without_config_witness :
  @Ontology.classify_ontology demo_runtime (p1_fails (Err ConnectError))
    (Ok llm_routes_yaml) no_text
    (@Ontology._load_ontology_config demo_runtime None) text_plain g0
  = (Ontology.Returned
       (@Ontology.Build_OntologyLabel demo_runtime Ontology.general
          Ontology.general 0), g0).
Proof.
  apply (@OntologyFacts.classify_without_config demo_runtime).
  reflexivity.
Defined.



Lemma classify_raises_configuration_error_witness :
  @Ontology.classify_ontology demo_runtime (p1_fails (Err ConnectError))
    (Ok {| doc_providers := None; doc_routes := None |}) no_text
    ontology_config text_plain g0
  = (Ontology.Raised
       (Ontology.Builtin
          (ValueError "llm_routes.yaml must define a 'default' route")), g0).
Proof.
  apply (@OntologyFacts.classify_raises_configuration_error demo_runtime).
  - reflexivity.
  - vm_compute. reflexivity.
  - reflexivity.
  - reflexivity.
Defined.

End MoreExamples.
